(** * RodSimulator3000: a shallow embedding of [rod-simulator.py]

    The program heats a cylindrical rod: a [HeatSource] injects
    [delta * power] joules into its target [Rod] at each tick, the [Rod]
    derives temperature and dimensions from its heat, and a [Simulation]
    ticks its registered objects in order.

    Modelling decisions, all taken from the source:

    - Python numbers.  The program computes with whatever numbers it is
      given; run as written it computes with binary64 floats.  The
      embedding is written once over an interface [PyNum] of the
      operators the source uses ([+], [-], [*], [/], [** 2], [>=], [<]
      and numeric literals) and has two instances: [float] (the kernel's
      binary64 numbers, the arithmetic of CPython's [float]) and [Qc]
      (exact rationals, arithmetic without rounding).  [/] raises
      [ZeroDivisionError] on a zero divisor in both, as Python does.
    - Exceptions.  A method returns a [result]: a value or a raised
      exception.  State changes made before the exception stay.
    - Objects.  [Rod] and [HeatSource] objects are mutable and shared (the
      simulation's list and the heat source's [target] name the same
      rod), so they live in a store and are named by addresses.
      A [Material] is never assigned to after its construction, so it is
      embedded by value.
    - The environment.  [time.time()] reads the next value of a clock
      oracle; [print] appends to the console output.
    - [Simulation.run] (the unbounded real-time loop) is not embedded. *)

From Stdlib Require Import ZArith QArith Qcanon Floats Bool Ascii String Lia.
From stdpp Require Import base list.

Set Default Proof Using "Type".

(** ** Exceptions and results *)

Inductive exn : Type :=
| AttributeError
| ZeroDivisionError
| OverflowError.

Inductive result (A : Type) : Type :=
| Ok (a : A)
| Raise (e : exn).

Arguments Ok {A} a.
Arguments Raise {A} e.

#[global] Instance result_ret : MRet result := @Ok.
#[global] Instance result_bind : MBind result := fun A B f m =>
  match m with
  | Ok a => f a
  | Raise e => Raise e
  end.

(** ** The numbers of the program *)

Class PyNum (F : Type) : Type := {
  (** a numeric literal with an integral value: [0.0], [1.0], [273 + 20] *)
  of_int : Z -> F;
  py_add : F -> F -> F;
  py_sub : F -> F -> F;
  py_mul : F -> F -> F;
  (** [x / y] *)
  py_truediv : F -> F -> result F;
  (** [x ** 2] *)
  py_pow2 : F -> result F;
  (** [x >= y] *)
  py_ge : F -> F -> bool;
  (** [x < y] *)
  py_lt : F -> F -> bool
}.

(** *** binary64 floats, as CPython's [float] *)

Module Float64.

(** The literals of the source are small integers, which binary64
    represents exactly. *)
Definition int_to_float (z : Z) : float :=
  match z with
  | Z0 => 0%float
  | Zpos _ => PrimFloat.of_uint63 (Uint63.of_Z z)
  | Zneg p => (- PrimFloat.of_uint63 (Uint63.of_Z (Zpos p)))%float
  end.

(** [float_div]: a zero divisor (of either sign) raises. *)
Definition float_truediv (x y : float) : result float :=
  if (y =? 0)%float then Raise ZeroDivisionError else Ok (x / y)%float.

(** [float_pow] at the exponent 2: NaN and the infinities pass through,
    the sign is dropped, and a finite base whose square is out of range
    raises [OverflowError]; a square that underflows is returned.
    The square itself is the C library's [pow]; it is taken correctly
    rounded here, which [pow] is whenever the square is a binary64
    number. *)
Definition float_pow2 (x : float) : result float :=
  let y := (abs x * abs x)%float in
  if is_finite x && is_infinity y then Raise OverflowError else Ok y.

#[global] Instance float_pynum : PyNum float := {|
  of_int := int_to_float;
  py_add := PrimFloat.add;
  py_sub := PrimFloat.sub;
  py_mul := PrimFloat.mul;
  py_truediv := float_truediv;
  py_pow2 := float_pow2;
  py_ge := fun x y => (y <=? x)%float;
  py_lt := fun x y => (x <? y)%float
|}.

End Float64.

(** *** exact rationals: the same operators without rounding *)

Module Exact.

Definition exact_truediv (x y : Qc) : result Qc :=
  if Qeq_bool y 0 then Raise ZeroDivisionError else Ok (x / y)%Qc.

#[global] Instance exact_pynum : PyNum Qc := {|
  of_int := fun z => Q2Qc (inject_Z z);
  py_add := Qcplus;
  py_sub := Qcminus;
  py_mul := Qcmult;
  py_truediv := exact_truediv;
  py_pow2 := fun x => Ok (x * x)%Qc;
  py_ge := fun x y => Qle_bool y x;
  py_lt := fun x y => negb (Qle_bool y x)
|}.

End Exact.

(** ** The classes of the program *)

Definition addr : Type := nat.

(** What a Python variable or attribute may hold here: [None] or a
    reference to an object of the store. *)
Inductive value : Type :=
| VNone
| VObj (a : addr).

Section Program.

Context {F : Type} `{PyNum F}.

(** [class Material] *)
Record Material : Type := mkMaterial {
  density : F;
  specificHeat : F;
  expansionCoefficient : F
}.

(** [class Rod]: the attributes [__init__] creates. *)
Record Rod : Type := mkRod {
  STPLength : F;
  STPDiameter : F;
  mass : F;
  material : Material;
  heat : F;
  lastPrint : F;
  printed : bool
}.

(** [class HeatSource]: [__init__] creates [power] and [on] only;
    [target] exists once [setTarget] has run ([None] here: no such
    attribute). *)
Record HeatSource : Type := mkHeatSource {
  power : F;
  on : bool;
  target : option value
}.

(** [class Simulation] *)
Record Simulation : Type := mkSimulation {
  objects : list value
}.

Inductive object : Type :=
| ORod (r : Rod)
| OHeatSource (h : HeatSource).

(** A line of console output.  The text of the table header is kept;
    a row keeps the numbers it formats. *)
Inductive line : Type :=
| Text (s : string)
| HeatCapacity (h : F)
| Row (heat lengthExpansion diameterExpansion celsius elapsed : F).

(** The state of the process. [calls] is a ghost field: the calls
    [obj.tick(delta)] that [Simulation.tick] has made, oldest first. *)
Record World : Type := mkWorld {
  store : list object;
  stdout : list line;
  clock : nat -> F;
  reads : nat;
  calls : list (value * F)
}.

Definition set_store (w : World) (s : list object) : World :=
  mkWorld s (stdout w) (clock w) (reads w) (calls w).

(** *** The monad of methods: state and exceptions *)

Definition M (A : Type) : Type := World -> result A * World.

#[global] Instance M_ret : MRet M := fun A a w => (Ok a, w).
#[global] Instance M_bind : MBind M := fun A B f m w =>
  match m w with
  | (Ok a, w') => f a w'
  | (Raise e, w') => (Raise e, w')
  end.

Definition raise {A : Type} (e : exn) : M A := fun w => (Raise e, w).

Definition lift {A : Type} (r : result A) : M A := fun w => (r, w).

(** [time.time()] *)
Definition time_time : M F := fun w =>
  (Ok (clock w (reads w)),
   mkWorld (store w) (stdout w) (clock w) (S (reads w)) (calls w)).

(** [print(...)] *)
Definition print (l : line) : M unit := fun w =>
  (Ok tt, mkWorld (store w) (stdout w ++ [l]) (clock w) (reads w) (calls w)).

Definition log_call (obj : value) (delta : F) : M unit := fun w =>
  (Ok tt,
   mkWorld (store w) (stdout w) (clock w) (reads w) (calls w ++ [(obj, delta)])).

(** A new object gets the next free address. *)
Definition alloc (o : object) : M addr := fun w =>
  (Ok (length (store w)), set_store w (store w ++ [o])).

(** Reading [self] as an instance of a class.  The methods below are
    only ever entered on an instance of their class; an address that
    holds something else reads as a missing attribute. *)
Definition get_rod (a : addr) : M Rod := fun w =>
  match store w !! a with
  | Some (ORod r) => (Ok r, w)
  | _ => (Raise AttributeError, w)
  end.

Definition get_heatsource (a : addr) : M HeatSource := fun w =>
  match store w !! a with
  | Some (OHeatSource h) => (Ok h, w)
  | _ => (Raise AttributeError, w)
  end.

Definition set_object (a : addr) (o : object) : M unit := fun w =>
  (Ok tt, set_store w (<[a := o]> (store w))).

End Program.

Arguments Material F : clear implicits.
Arguments Rod F : clear implicits.
Arguments HeatSource F : clear implicits.
Arguments object F : clear implicits.
Arguments line F : clear implicits.
Arguments World F : clear implicits.
Arguments M F A : clear implicits.

(** ** The methods *)

Section Methods.

Context {F : Type} `{PyNum F}.

Implicit Types (self : Rod F) (w : World F).

(** *** [class Rod] *)

(** [return self.heat / self.material.specificHeat / self.mass] *)
Definition Rod_temperature self : result F :=
  q ← py_truediv (heat self) (specificHeat (material self));
  py_truediv q (mass self).

(** [return self.temperature() - 273.0 - 20.0] *)
Definition Rod_expansionTemperature self : result F :=
  t ← Rod_temperature self;
  Ok (py_sub (py_sub t (of_int 273)) (of_int 20)).

(** [return 1.0 + (self.material.expansionCoefficient * 3.0
                   * self.expansionTemperature())] *)
Definition Rod_volumeExpansion self : result F :=
  let c3 := py_mul (expansionCoefficient (material self)) (of_int 3) in
  dT ← Rod_expansionTemperature self;
  Ok (py_add (of_int 1) (py_mul c3 dT)).

(** [return 1.0 + self.volumeExpansion() * self.expansionTemperature()] *)
Definition Rod_linearExpansion self : result F :=
  e ← Rod_volumeExpansion self;
  dT ← Rod_expansionTemperature self;
  Ok (py_add (of_int 1) (py_mul e dT)).

(** [return self.STPLength * self.volumeExpansion()] *)
Definition Rod_length self : result F :=
  e ← Rod_volumeExpansion self;
  Ok (py_mul (STPLength self) e).

(** [return self.STPDiameter * self.volumeExpansion()] *)
Definition Rod_diameter self : result F :=
  e ← Rod_volumeExpansion self;
  Ok (py_mul (STPDiameter self) e).

(** [return self.length() * (self.diameter() / 2.0) ** 2] *)
Definition Rod_STPVolume self : result F :=
  l ← Rod_length self;
  d ← Rod_diameter self;
  r ← py_truediv d (of_int 2);
  r2 ← py_pow2 r;
  Ok (py_mul l r2).

(** [return self.STPVolume() * self.volumeExpansion()] *)
Definition Rod_volume self : result F :=
  v ← Rod_STPVolume self;
  e ← Rod_volumeExpansion self;
  Ok (py_mul v e).

Definition set_heat self (h : F) : Rod F :=
  mkRod (STPLength self) (STPDiameter self) (mass self) (material self)
        h (lastPrint self) (printed self).

Definition set_lastPrint self (t : F) : Rod F :=
  mkRod (STPLength self) (STPDiameter self) (mass self) (material self)
        (heat self) t (printed self).

Definition set_printed self (b : bool) : Rod F :=
  mkRod (STPLength self) (STPDiameter self) (mass self) (material self)
        (heat self) (lastPrint self) b.

(** [self.heat = self.material.specificHeat * kelvin * self.mass] *)
Definition Rod_setTemperature self (kelvin : F) : Rod F :=
  set_heat self (py_mul (py_mul (specificHeat (material self)) kelvin) (mass self)).

(** [self.heat += heatDelta] *)
Definition Rod_modifyHeat self (heatDelta : F) : Rod F :=
  set_heat self (py_add (heat self) heatDelta).

(** [Rod.__init__], given the reading [now] of the clock: the attributes
    in the order of the source, [heat] first [0.0] and then set by
    [self.setTemperature(273 + 20)]. *)
Definition Rod_attrs (material : Material F) (length diameter now : F) : Rod F :=
  let self :=
    mkRod length diameter
          (py_mul (py_mul length diameter) (density material))
          material (of_int 0) now false in
  Rod_setTemperature self (of_int (273 + 20)).

(** [Rod(material, length, diameter)]: a new object of the store. *)
Definition Rod_init (material : Material F) (length diameter : F) : M F addr :=
  now ← time_time;
  alloc (ORod (Rod_attrs material length diameter now)).

(** The methods called on an address of the store. *)
Definition Rod_setTemperature_at (a : addr) (kelvin : F) : M F unit :=
  r ← get_rod a;
  set_object a (ORod (Rod_setTemperature r kelvin)).

Definition Rod_modifyHeat_at (a : addr) (heatDelta : F) : M F unit :=
  r ← get_rod a;
  set_object a (ORod (Rod_modifyHeat r heatDelta)).

(** [str.format] with the specification [Ns]: the text, padded with
    spaces on the right up to [n] characters. *)
Definition ljust (n : nat) (s : string) : string :=
  (s ++ string_of_list_ascii (repeat " "%char (n - String.length s)))%string.

Definition header : string :=
  ("| " ++ ljust 16 "Heat" ++ " | " ++ ljust 20 "Length expansion"
   ++ " | " ++ ljust 20 "Diameter expansion" ++ " | "
   ++ ljust 20 "Temperature" ++ " | " ++ ljust 20 "Time elapsed" ++ " |")%string.

(** ['-' * len(header)] *)
Definition rule : string :=
  string_of_list_ascii (repeat "-"%char (String.length header)).

(** [Rod.tick] *)
Definition Rod_tick (a : addr) (delta : F) : M F unit :=
  now ← time_time;
  self ← get_rod a;
  let elapsed := py_sub now (lastPrint self) in
  len ← lift (Rod_length self);
  let lengthExpansion := py_sub len (STPLength self) in
  dia ← lift (Rod_diameter self);
  let diameterExpansion := py_sub dia (STPDiameter self) in
  self ← (if printed self then mret self
          else
            print (Text header);;
            print (Text rule);;
            set_object a (ORod (set_printed self true));;
            mret (set_printed self true));
  if py_ge elapsed (of_int 1) then
    t ← lift (Rod_temperature self);
    print (Row (heat self) lengthExpansion diameterExpansion
               (py_sub t (of_int 273)) elapsed);;
    set_object a (ORod (set_lastPrint self (py_add (lastPrint self) (of_int 1))))
  else mret tt.

(** *** [class HeatSource] *)

Definition HeatSource_init (power : F) : M F addr :=
  alloc (OHeatSource (mkHeatSource power false None)).

Definition HeatSource_setTarget (a : addr) (obj : value) : M F unit :=
  h ← get_heatsource a;
  set_object a (OHeatSource (mkHeatSource (power h) (on h) (Some obj))).

Definition HeatSource_setPower (a : addr) (p : F) : M F unit :=
  h ← get_heatsource a;
  set_object a (OHeatSource (mkHeatSource p (on h) (target h))).

Definition HeatSource_turnOn (a : addr) : M F unit :=
  h ← get_heatsource a;
  set_object a (OHeatSource (mkHeatSource (power h) true (target h))).

Definition HeatSource_turnOff (a : addr) : M F unit :=
  h ← get_heatsource a;
  set_object a (OHeatSource (mkHeatSource (power h) false (target h))).

(** [self.target]: an attribute that was never assigned raises. *)
Definition getattr_target (h : HeatSource F) : M F value :=
  match target h with
  | Some v => mret v
  | None => raise AttributeError
  end.

(** [v == None]; objects of the program's classes compare by identity. *)
Definition eq_None (v : value) : bool :=
  match v with
  | VNone => true
  | VObj _ => false
  end.

(** [v.modifyHeat(x)]: only a [Rod] has the method. *)
Definition call_modifyHeat (v : value) (x : F) : M F unit :=
  match v with
  | VNone => raise AttributeError
  | VObj a => Rod_modifyHeat_at a x
  end.

(** [HeatSource.tick]:
[[
    if self.target == None or not self.on:
        pass
    self.target.modifyHeat(delta * self.power)
]]
    The guarded statement is [pass], so both branches continue with the
    call that follows the [if]. *)
Definition HeatSource_tick (a : addr) (delta : F) : M F unit :=
  self ← get_heatsource a;
  t ← getattr_target self;
  (if eq_None t || negb (on self) then mret tt else mret tt);;
  t ← getattr_target self;
  call_modifyHeat t (py_mul delta (power self)).

(** *** [class Simulation] *)

Definition Simulation_init : Simulation := mkSimulation [].

(** [self.objects.append(obj)] *)
Definition Simulation_addObject (sim : Simulation) (obj : value) : Simulation :=
  mkSimulation (objects sim ++ [obj]).

(** [obj.tick(delta)], by the class of the object. *)
Definition call_tick (obj : value) (delta : F) : M F unit :=
  log_call obj delta;;
  match obj with
  | VNone => raise AttributeError
  | VObj a => fun w =>
      match store w !! a with
      | Some (ORod _) => Rod_tick a delta w
      | Some (OHeatSource _) => HeatSource_tick a delta w
      | None => (Raise AttributeError, w)
      end
  end.

(** [for x in l: body(x)] *)
Fixpoint for_each {A : Type} (l : list A) (body : A -> M F unit) : M F unit :=
  match l with
  | [] => mret tt
  | x :: l' => body x;; for_each l' body
  end.

(** [Simulation.tick] *)
Definition Simulation_tick (sim : Simulation) (delta : F) : M F unit :=
  for_each (objects sim) (fun obj => call_tick obj delta).

(** [molarToMassHeatCapacity] *)
Definition molarToMassHeatCapacity (molarCapacity molarMass : F) : result F :=
  py_truediv molarCapacity molarMass.

End Methods.

(** ** Sequences of calls on one object *)

Section Calls.

Context {F : Type} `{PyNum F}.

(** The calls that the claims about a [Rod]'s life consider. *)
Inductive rod_call : Type :=
| CallModifyHeat (heatDelta : F)
| CallSetTemperature (kelvin : F)
| CallRodTick (delta : F).

Definition do_rod_call (a : addr) (c : rod_call) : M F unit :=
  match c with
  | CallModifyHeat x => Rod_modifyHeat_at a x
  | CallSetTemperature k => Rod_setTemperature_at a k
  | CallRodTick d => Rod_tick a d
  end.

(** The calls on a [HeatSource] other than [setTarget]. *)
Inductive heatsource_call : Type :=
| CallSetPower (power : F)
| CallTurnOn
| CallTurnOff
| CallHeatSourceTick (delta : F).

Definition do_heatsource_call (a : addr) (c : heatsource_call) : M F unit :=
  match c with
  | CallSetPower p => HeatSource_setPower a p
  | CallTurnOn => HeatSource_turnOn a
  | CallTurnOff => HeatSource_turnOff a
  | CallHeatSourceTick d => HeatSource_tick a d
  end.

(** The world after a sequence of calls, each made whether or not the
    one before it raised (a caller may catch the exception and go on). *)
Fixpoint after_calls {C : Type} (run : C -> M F unit) (cs : list C)
         (w : World F) : World F :=
  match cs with
  | [] => w
  | c :: cs' => after_calls run cs' (run c w).2
  end.

(** The attributes of a [Rod] that fix its geometry and substance. *)
Definition built (r : Rod F) : F * F * F * Material F :=
  (STPLength r, STPDiameter r, mass r, material r).

(** The physical state of a [Rod]: all but the display bookkeeping. *)
Definition physical (r : Rod F) : F * F * F * Material F * F :=
  (built r, heat r).

End Calls.

(** ** Statements about the numbers, for any arithmetic *)

Section Statements.

Context {F : Type} `{PyNum F}.

(** [x > 0] *)
Definition positive (x : F) : Prop := py_lt (of_int 0) x = true.

(** The heat of the rod at address [a], if there is a rod. *)
Definition heat_at (a : addr) (w : World F) : option F :=
  match store w !! a with
  | Some (ORod r) => Some (heat r)
  | _ => None
  end.



(** [setTemperature(k)] and then [temperature()] gives [k] back. *)
Definition temperature_round_trip (r : Rod F) (k : F) : Prop :=
  Rod_temperature (Rod_setTemperature r k) = Ok k.



End Statements.

(** ** The program's own run and the inputs of the examples, on floats *)

Module Scenario.

Local Open Scope float_scope.

(** A clock that is read every half second. *)
Definition clock0 (n : nat) : float :=
  1024 + PrimFloat.of_uint63 (Uint63.of_Z (Z.of_nat n)) * 0.5.

Definition empty : World float := mkWorld [] [] clock0 0 [].

(** The module-level statements of the source up to [simulator.run()],
    its literals [25.1], [0.055845], [7.874], [11.8e-6] and [0.05]
    written as the binary64 numbers Python reads them as.
    Returns [(simulator, heater, rod)]. *)
Definition main : M float (Simulation * addr * addr) :=
  let simulator := Simulation_init in
  h ← lift (molarToMassHeatCapacity 0x1.919999999999ap+4 0x1.c97b7414a4d2bp-5);
  print (HeatCapacity h);;
  let iron := mkMaterial 0x1.f7ef9db22d0e5p+2 h 0x1.8bf13a6a5f197p-17 in
  rod ← Rod_init iron 1 0x1.999999999999ap-5;
  heater ← HeatSource_init 100;
  HeatSource_setTarget heater (VObj rod);;
  let simulator := Simulation_addObject simulator (VObj heater) in
  let simulator := Simulation_addObject simulator (VObj rod) in
  mret (simulator, heater, rod).

(** The world in which [simulator.run()] starts; the rod is at address
    0 and the heater, switched off, at address 1. *)
Definition started : World float := (main empty).2.

(** The iron rod of the program, as [main] leaves it. *)
Definition iron_rod : Rod float :=
  match store started !! 0%nat with
  | Some (ORod r) => r
  | _ => mkRod 0 0 0 (mkMaterial 0 0 0) 0 0 false
  end.







(** The world of [main] after [heater.setTarget(None)]. *)
Definition target_None : World float := (HeatSource_setTarget 1%nat VNone started).2.

(** The world of [main] after [heater.turnOn()]. *)
Definition switched_on : World float := (HeatSource_turnOn 1%nat started).2.

End Scenario.

(** The same rod in exact arithmetic: iron of density 7.874, specific
    heat 449, expansion coefficient 11.8e-6; length 1, diameter 0.05. *)
Module ExactScenario.

Local Open Scope Qc_scope.

Definition exact_iron : Material Qc :=
  mkMaterial (Q2Qc (7874 # 1000)) (Q2Qc 449) (Q2Qc (118 # 10000000)).

Definition exact_iron_rod : Rod Qc :=
  Rod_attrs exact_iron (Q2Qc 1) (Q2Qc (5 # 100)) (Q2Qc 1024).


End ExactScenario.

(** ** [Simulation.run], and what is observed of the console and the store *)

Section Run.

Context {F : Type} `{PyNum F}.

(** [STEP = 1.0 / 60.0], evaluated when the module is loaded. *)
Definition STEP : result F := py_truediv (of_int 1) (of_int 60).

(** The state of the process while [run] loops: the world, and the
    durations [time.sleep] has been called with, oldest first.  The clock
    is an oracle, so a sleep has no other effect here. *)
Record Process : Type := mkProcess {
  world : World F;
  slept : list F
}.

(** One pass through the body of [while True], entered with the locals
    [now] and [prev] and with [step] the value of [STEP]:
[[
    delta = now - prev
    self.tick(delta)
    if delta < STEP:
        time.sleep(STEP - delta)
    prev = now
    now = time.time()
]]
    It gives the new [(now, prev)], or the exception that [tick] raised.
    [time.sleep] is taken to return: it raises on a negative duration,
    and the properties of [run] show that it is never called with one;
    it also refuses a duration that is infinite, which takes a clock that
    returns infinite readings and is left out here. *)
Definition run_body (step : F) (sim : Simulation) (now prev : F) (p : Process)
  : result (F * F) * Process :=
  let delta := py_sub now prev in
  match Simulation_tick sim delta (world p) with
  | (Raise e, w) => (Raise e, mkProcess w (slept p))
  | (Ok _, w) =>
      let s := if py_lt delta step
               then slept p ++ [py_sub step delta] else slept p in
      match time_time w with
      | (Ok now', w') => (Ok (now', now), mkProcess w' s)
      | (Raise e, w') => (Raise e, mkProcess w' s)
      end
  end.

(** [fuel] passes through the body of the loop, unless one raises. *)
Fixpoint run_loop (fuel : nat) (step : F) (sim : Simulation) (now prev : F)
         (p : Process) : result (F * F) * Process :=
  match fuel with
  | 0 => (Ok (now, prev), p)
  | S n =>
      match run_body step sim now prev p with
      | (Ok (now', prev'), p') => run_loop n step sim now' prev' p'
      | (Raise e, p') => (Raise e, p')
      end
  end.

(** [Simulation.run], cut after [fuel] passes of its loop:
[[
    now = time.time()
    prev = now
    while True: ...
]]
    The loop has no exit: the result is either [Ok (now, prev)], the
    locals with which the next pass would start, or the exception that
    ended [run]. *)
Definition Simulation_run (fuel : nat) (sim : Simulation) (p : Process)
  : result (F * F) * Process :=
  match STEP with
  | Raise e => (Raise e, p)
  | Ok step =>
      match time_time (world p) with
      | (Ok now, w) => run_loop fuel step sim now now (mkProcess w (slept p))
      | (Raise e, w) => (Raise e, mkProcess w (slept p))
      end
  end.

(** Lines of the console, by kind. *)
Definition is_header (l : line F) : bool :=
  match l with
  | Text s => String.eqb s header
  | _ => false
  end.

Definition is_rule (l : line F) : bool :=
  match l with
  | Text s => String.eqb s rule
  | _ => false
  end.

Definition is_row (l : line F) : bool :=
  match l with
  | Row _ _ _ _ _ => true
  | _ => false
  end.

Definition count_lines (f : line F -> bool) (w : World F) : nat :=
  length (List.filter f (stdout w)).

(** The rods of the store that have not printed their header yet. *)
Definition is_unprinted (o : object F) : bool :=
  match o with
  | ORod r => negb (printed r)
  | OHeatSource _ => false
  end.

Definition unprinted (w : World F) : nat :=
  length (List.filter is_unprinted (store w)).

(** The entries of a simulation's list that name a rod of the store. *)
Definition names_rod (w : World F) (obj : value) : bool :=
  match obj with
  | VObj a => match store w !! a with Some (ORod _) => true | _ => false end
  | VNone => false
  end.

Definition rod_entries (w : World F) (objs : list value) : nat :=
  length (List.filter (names_rod w) objs).

(** Two stores hold objects of the same classes at the same addresses,
    the heat sources unchanged and the rods with the attributes they were
    built with. *)
Definition same_objects (s s' : list (object F)) : Prop :=
  length s' = length s /\
  (forall (a : addr) h,
     s !! a = Some (OHeatSource h) -> s' !! a = Some (OHeatSource h)) /\
  (forall (a : addr) r, s !! a = Some (ORod r) ->
     exists r', s' !! a = Some (ORod r') /\ built r' = built r).

(** The lines a tick of the rod [r] prints when [temperature()] is [t]
    and the clock reads [now], and the rod it leaves. *)
Definition tick_header (r : Rod F) : list (line F) :=
  if printed r then [] else [Text header; Text rule].

Definition tick_row (r : Rod F) (t now : F) : list (line F) :=
  let elapsed := py_sub now (lastPrint r) in
  let dT := py_sub (py_sub t (of_int 273)) (of_int 20) in
  let e := py_add (of_int 1)
             (py_mul (py_mul (expansionCoefficient (material r)) (of_int 3)) dT) in
  if py_ge elapsed (of_int 1)
  then [Row (heat r)
            (py_sub (py_mul (STPLength r) e) (STPLength r))
            (py_sub (py_mul (STPDiameter r) e) (STPDiameter r))
            (py_sub t (of_int 273)) elapsed]
  else [].

Definition ticked (r : Rod F) (now : F) : Rod F :=
  let r1 := set_printed r true in
  if py_ge (py_sub now (lastPrint r)) (of_int 1)
  then set_lastPrint r1 (py_add (lastPrint r) (of_int 1))
  else r1.

(** The readings of the clock that the loop of [run] takes itself, when
    the first is the reading number [i0] and every pass ticks [R] rods
    (each tick of a rod reads the clock once): the reading before the
    loop is number 0, the one at the end of pass [k] is number [k + 1]. *)
Definition run_reading (c : nat -> F) (i0 R k : nat) : F := c (i0 + k * S R).

(** The [delta] of pass [k] of the loop: the last reading less the one
    before it; both are the first reading in pass 0. *)
Definition run_delta (c : nat -> F) (i0 R k : nat) : F :=
  py_sub (run_reading c i0 R k) (run_reading c i0 R (pred k)).

(** What pass [k] sleeps, if anything. *)
Definition run_sleep (step : F) (c : nat -> F) (i0 R k : nat) : list F :=
  if py_lt (run_delta c i0 R k) step
  then [py_sub step (run_delta c i0 R k)] else [].

End Run.

(** More inputs for the examples, on floats. *)
Module Inputs.

Local Open Scope float_scope.

(** The simulation of the program: the heater registered before the
    rod. *)
Definition simulator : Simulation :=
  Simulation_addObject (Simulation_addObject Simulation_init (VObj 1%nat)) (VObj 0%nat).

(** The process in which [simulator.run()] starts. *)
Definition booted : Process := mkProcess Scenario.started [].

(** [Rod(Material(1.0, 1.0, 1.2e-05), 1.0, 1e200)]: an iron-like rod with
    a diameter whose square is out of the range of binary64. *)
Definition wide_rod : Rod float :=
  Rod_attrs (mkMaterial 1 1 0x1.92a737110e454p-17) 1 0x1.4e718d7d7625ap+664 1024.

End Inputs.

(** Inputs in exact arithmetic: the iron rod at address 0, a heater of
    100 W aimed at it at address 1, registered before it, and a clock that
    is read every 1/100 s. *)
Module ExactInputs.

Local Open Scope Qc_scope.




End ExactInputs.

(** A binary64 number, as the kernel specifies it, that is not below
    zero: a zero, a positive number, plus infinity, or not a number. *)
Definition not_negative (x : spec_float) : Prop :=
  match x with
  | S754_zero _ | S754_nan => True
  | S754_infinity s | S754_finite s _ _ => s = false
  end.

(** * Properties *)

(** Unfolding the two monads down to pattern matching. *)
Ltac monad_unfold :=
  unfold mbind, mret, M_bind, M_ret, result_bind, result_ret,
         raise, lift, get_rod, get_heatsource, set_object, alloc,
         time_time, print, log_call in *.

Section Properties.

Context {F : Type} `{PyNum F}.

Implicit Types (w : World F) (r : Rod F) (h : HeatSource F)
         (a b : addr) (delta : F).

(** ** [HeatSource.tick] *)

(** With a rod as target, [tick] adds [delta * power] joules to the
    rod's heat and changes nothing else, whatever the [on] flag says. *)
Lemma HeatSource_tick_target w a b h r delta :
  store w !! a = Some (OHeatSource h) ->
  target h = Some (VObj b) ->
  store w !! b = Some (ORod r) ->
  HeatSource_tick a delta w =
    (Ok tt,
     set_store w (<[b := ORod (Rod_modifyHeat r (py_mul delta (power h)))]> (store w))).
Proof.
  intros Ha Ht Hb.
  unfold HeatSource_tick, getattr_target, call_modifyHeat, Rod_modifyHeat_at.
  monad_unfold. rewrite Ha, Ht. simpl.
  destruct (on h); simpl; rewrite Hb; reflexivity.
Qed.


(** ** [Rod.tick] *)

(** What [Rod.tick] does to the store: nothing, or it replaces the ticked
    rod by one that differs in [printed] and [lastPrint] only.  It never
    touches the record of calls. *)
Lemma Rod_tick_effect w a delta :
  calls (Rod_tick a delta w).2 = calls w /\
  (store (Rod_tick a delta w).2 = store w \/
   exists r r',
     store w !! a = Some (ORod r) /\ physical r' = physical r /\
     store (Rod_tick a delta w).2 = <[a := ORod r']> (store w)).
Proof.
  unfold Rod_tick. monad_unfold. simpl.
  destruct (store w !! a) as [[r|h]|] eqn:Ha; simpl; auto.
  destruct (Rod_length r) as [len|e]; simpl; auto.
  destruct (Rod_diameter r) as [dia|e]; simpl; auto.
  destruct (printed r) eqn:Hp; simpl.
  - destruct (py_ge _ _); simpl; auto.
    destruct (Rod_temperature r) as [t|e]; simpl; auto.
    split; auto. right. exists r, (set_lastPrint r (py_add (lastPrint r) (of_int 1))).
    auto.
  - destruct (py_ge _ _); simpl.
    + destruct (Rod_temperature _) as [t|e]; simpl.
      * split; auto. right.
        exists r, (set_lastPrint (set_printed r true)
                     (py_add (lastPrint (set_printed r true)) (of_int 1))).
        rewrite list_insert_insert_eq. auto.
      * split; auto. right. exists r, (set_printed r true). auto.
    + split; auto. right. exists r, (set_printed r true). auto.
Qed.

(** Replacing a rod by one of the same physical state keeps the physical
    state of every rod of the store. *)
Lemma insert_same_physical (s : list (object F)) a r r' b rb :
  s !! a = Some (ORod r) ->
  physical r' = physical r ->
  s !! b = Some (ORod rb) ->
  exists rb', <[a := ORod r']> s !! b = Some (ORod rb') /\ physical rb' = physical rb.
Proof.
  intros Ha Hp Hb. destruct (decide (a = b)) as [->|Hne].
  - exists r'. split.
    + apply list_lookup_insert_eq. eapply lookup_lt_Some; eassumption.
    + congruence.
  - exists rb. split; [ | reflexivity ].
    rewrite list_lookup_insert_ne by assumption. assumption.
Qed.

(** (C7) [Rod.tick(delta)] leaves the physical state ([heat],
    [STPLength], [STPDiameter], [mass], [material]) of the ticked rod, and
    of every other rod of the store, as it was, whether it returns or
    raises. *)
Theorem Rod_tick_keeps_physical w a delta b rb :
  store w !! b = Some (ORod rb) ->
  exists rb',
    store (Rod_tick a delta w).2 !! b = Some (ORod rb') /\
    heat rb' = heat rb /\ STPLength rb' = STPLength rb /\
    STPDiameter rb' = STPDiameter rb /\ mass rb' = mass rb /\
    material rb' = material rb.
Proof.
  intros Hb.
  assert (exists rb', store (Rod_tick a delta w).2 !! b = Some (ORod rb') /\
                      physical rb' = physical rb) as (rb' & Hl & Hp).
  { destruct (Rod_tick_effect w a delta) as [_ [-> | (r & r' & Ha & Hp & ->)]].
    - exists rb. auto.
    - eapply insert_same_physical; eassumption. }
  exists rb'. split; [ assumption | ].
  unfold physical, built in Hp. injection Hp as -> -> -> -> ->. auto.
Qed.

(** ** The life of a rod *)

Lemma do_rod_call_built a (c : rod_call) w r :
  store w !! a = Some (ORod r) ->
  exists r', store (do_rod_call a c w).2 !! a = Some (ORod r') /\ built r' = built r.
Proof.
  intros Ha. pose proof (lookup_lt_Some _ _ _ Ha) as Hlt.
  destruct c as [x|k|d]; simpl.
  - unfold Rod_modifyHeat_at. monad_unfold. rewrite Ha. simpl.
    eexists. split; [ apply list_lookup_insert_eq; assumption | reflexivity ].
  - unfold Rod_setTemperature_at. monad_unfold. rewrite Ha. simpl.
    eexists. split; [ apply list_lookup_insert_eq; assumption | reflexivity ].
  - destruct (Rod_tick_effect w a d) as [_ [-> | (r0 & r' & Ha' & Hp & ->)]].
    + exists r. auto.
    + exists r'. split; [ apply list_lookup_insert_eq; assumption | ].
      rewrite Ha in Ha'. injection Ha' as <-.
      unfold physical in Hp. congruence.
Qed.

Lemma after_rod_calls_built a (cs : list rod_call) : forall w r,
  store w !! a = Some (ORod r) ->
  exists r', store (after_calls (do_rod_call a) cs w) !! a = Some (ORod r') /\
             built r' = built r.
Proof.
  induction cs as [|c cs IH]; intros w r Ha; simpl.
  - exists r. auto.
  - destruct (do_rod_call_built a c w r Ha) as (r1 & H1 & Hb1).
    destruct (IH _ r1 H1) as (r2 & H2 & Hb2).
    exists r2. split; [ assumption | congruence ].
Qed.

(** (C9) A rod constructed from material [m], length [L] and diameter
    [D] keeps [STPLength = L], [STPDiameter = D], [mass = L * D * m.density]
    and [material = m] through every sequence of [modifyHeat],
    [setTemperature] and [tick] calls. *)
Theorem Rod_built_invariant (m : Material F) (L D : F) w (cs : list rod_call) :
  exists a w1 r,
    Rod_init m L D w = (Ok a, w1) /\
    store (after_calls (do_rod_call a) cs w1) !! a = Some (ORod r) /\
    STPLength r = L /\ STPDiameter r = D /\
    mass r = py_mul (py_mul L D) (density m) /\ material r = m.
Proof.
  set (r0 := Rod_attrs m L D (clock w (reads w))).
  assert (store (Rod_init m L D w).2 !! length (store w) = Some (ORod r0)) as H0.
  { unfold Rod_init. monad_unfold. simpl.
    rewrite lookup_app_r by lia. rewrite Nat.sub_diag. reflexivity. }
  destruct (after_rod_calls_built (length (store w)) cs _ r0 H0) as (r & Hr & Hb).
  exists (length (store w)), (Rod_init m L D w).2, r.
  split; [ reflexivity | ]. split; [ exact Hr | ].
  unfold built in Hb. injection Hb as -> -> -> ->. auto.
Qed.

(** ** A heat source without a target *)

Lemma do_heatsource_call_unset a (c : heatsource_call) w h :
  store w !! a = Some (OHeatSource h) -> target h = None ->
  exists h', store (do_heatsource_call a c w).2 !! a = Some (OHeatSource h') /\
             target h' = None.
Proof.
  intros Ha Ht. pose proof (lookup_lt_Some _ _ _ Ha) as Hlt.
  destruct c as [p| | |d]; simpl;
    unfold HeatSource_setPower, HeatSource_turnOn, HeatSource_turnOff,
           HeatSource_tick, getattr_target;
    monad_unfold; rewrite Ha; simpl.
  1-3: eexists; split; [ apply list_lookup_insert_eq; assumption | assumption ].
  rewrite Ht. simpl. exists h. auto.
Qed.

Lemma after_heatsource_calls_unset a (cs : list heatsource_call) : forall w h,
  store w !! a = Some (OHeatSource h) -> target h = None ->
  exists h', store (after_calls (do_heatsource_call a) cs w) !! a
               = Some (OHeatSource h') /\ target h' = None.
Proof.
  induction cs as [|c cs IH]; intros w h Ha Ht; simpl.
  - exists h. auto.
  - destruct (do_heatsource_call_unset a c w h Ha Ht) as (h1 & H1 & Ht1).
    apply (IH _ h1 H1 Ht1).
Qed.

(** (C10) On a heat source constructed with any power and then used in
    any way except [setTarget] (so with the [on] flag in either state),
    [tick(delta)] raises [AttributeError] and changes nothing. *)
Theorem HeatSource_tick_without_target (p : F) w (cs : list heatsource_call) delta :
  exists a w1,
    HeatSource_init p w = (Ok a, w1) /\
    HeatSource_tick a delta (after_calls (do_heatsource_call a) cs w1)
    = (Raise AttributeError, after_calls (do_heatsource_call a) cs w1).
Proof.
  exists (length (store w)), (HeatSource_init p w).2.
  split; [ reflexivity | ].
  assert (store (HeatSource_init p w).2 !! length (store w)
          = Some (OHeatSource (mkHeatSource p false None))) as H0.
  { unfold HeatSource_init. monad_unfold. simpl.
    rewrite lookup_app_r by lia. rewrite Nat.sub_diag. reflexivity. }
  destruct (after_heatsource_calls_unset _ cs _ _ H0 eq_refl) as (h & Hh & Ht).
  unfold HeatSource_tick, getattr_target. monad_unfold.
  rewrite Hh. simpl. rewrite Ht. reflexivity.
Qed.

(** ** [Simulation.tick] *)

Lemma HeatSource_tick_calls w a delta :
  calls (HeatSource_tick a delta w).2 = calls w.
Proof.
  unfold HeatSource_tick, getattr_target, call_modifyHeat, Rod_modifyHeat_at.
  monad_unfold.
  destruct (store w !! a) as [[r|h]|]; simpl; auto.
  destruct (target h) as [[|b]|]; simpl; auto.
  destruct (on h); simpl;
    destruct (store w !! b) as [[r|h']|]; reflexivity.
Qed.

(** A dispatched call is recorded once, whatever it does. *)
Lemma call_tick_calls (obj : value) delta w :
  calls (call_tick obj delta w).2 = calls w ++ [(obj, delta)].
Proof.
  unfold call_tick. monad_unfold. simpl.
  destruct obj as [|a]; simpl; [ reflexivity | ].
  destruct (store w !! a) as [[r|h]|] eqn:Ha; simpl.
  - match goal with |- context [Rod_tick a delta ?w0] =>
      destruct (Rod_tick_effect w0 a delta) as [Hc _];
      destruct (Rod_tick a delta w0) as [[u|e] w1] end; exact Hc.
  - match goal with |- context [HeatSource_tick a delta ?w0] =>
      pose proof (HeatSource_tick_calls w0 a delta) as Hc;
      destruct (HeatSource_tick a delta w0) as [[u|e] w1] end; exact Hc.
  - reflexivity.
Qed.

Lemma for_each_call_tick (l : list value) delta : forall w,
  match for_each l (fun obj => call_tick obj delta) w with
  | (Ok _, w') => calls w' = calls w ++ map (fun obj => (obj, delta)) l
  | (Raise _, w') =>
      exists k, k < length l /\
        calls w' = calls w ++ map (fun obj => (obj, delta)) (take (S k) l)
  end.
Proof.
  induction l as [|x l IH]; intros w; simpl.
  - rewrite app_nil_r. reflexivity.
  - monad_unfold. pose proof (call_tick_calls x delta w) as Hx.
    destruct (call_tick x delta w) as [[u|e] w1]; simpl in Hx.
    + specialize (IH w1).
      destruct (for_each l _ w1) as [[u'|e] w2].
      * rewrite IH, Hx, <- app_assoc. reflexivity.
      * destruct IH as (k & Hk & IH). exists (S k). split; [ lia | ].
        rewrite IH, Hx, <- app_assoc. reflexivity.
    + exists 0. split; [ lia | ]. rewrite take_0. exact Hx.
Qed.



End Properties.

(** ** Exact arithmetic *)

Section ExactArithmetic.

Local Open Scope Qc_scope.

Implicit Types (x y : Qc) (r : Rod Qc).

Lemma Exact_truediv_ok x y : y <> 0 -> Exact.exact_truediv x y = Ok (x / y).
Proof.
  intros Hy. unfold Exact.exact_truediv.
  destruct (Qeq_bool y 0) eqn:E; [ | reflexivity ].
  apply Qeq_bool_iff in E. exfalso. apply Hy, Qc_is_canon. exact E.
Qed.


Lemma Exact_temperature r :
  specificHeat (material r) <> 0 -> mass r <> 0 ->
  Rod_temperature r = Ok (heat r / specificHeat (material r) / mass r).
Proof.
  intros Hs Hm. unfold Rod_temperature. simpl.
  rewrite (Exact_truediv_ok _ _ Hs). simpl.
  rewrite (Exact_truediv_ok _ _ Hm). reflexivity.
Qed.

(** (C4, in exact arithmetic) For a rod whose mass and specific heat are
    not zero and for [k > 0], [setTemperature(k)] followed by
    [temperature()] returns [k]. *)
Theorem temperature_round_trip_exact r k :
  mass r <> 0 -> specificHeat (material r) <> 0 -> 0 < k ->
  temperature_round_trip r k.
Proof.
  intros Hm Hs _. unfold temperature_round_trip.
  rewrite Exact_temperature by assumption. simpl.
  f_equal. field. auto.
Qed.




Lemma Exact_nonzero x : Qeq_bool x 0 = false -> x <> 0.
Proof. intros E ->. discriminate E. Qed.

Lemma temperature_round_trip_exact_witness :
  temperature_round_trip ExactScenario.exact_iron_rod (Q2Qc 300).
Proof.
  apply temperature_round_trip_exact;
    [ apply Exact_nonzero; reflexivity | apply Exact_nonzero; reflexivity
    | reflexivity ].
Defined.



End ExactArithmetic.

(** ** binary64 arithmetic: the program as it runs *)

Section FloatArithmetic.

Import Scenario.

Local Open Scope float_scope.

(** Multiplication of binary64 numbers commutes: [delta * power] is
    [power * delta]. *)
Lemma SFmul_comm prec emax x y : SFmul prec emax x y = SFmul prec emax y x.
Proof.
  destruct x as [sx|sx| |sx mx ex], y as [sy|sy| |sy my ey]; simpl;
    try reflexivity; try (rewrite xorb_comm; reflexivity).
  rewrite xorb_comm, Pos.mul_comm, Z.add_comm. reflexivity.
Qed.

Lemma float_mul_comm (x y : float) : x * y = y * x.
Proof. apply Prim2SF_inj. rewrite !mul_spec. apply SFmul_comm. Qed.

(** On floats, a heat source that is on, with a rod as target and power
    [P], leaves the rod with the heat [heat + P * delta] when ticked: the
    binary64 sum of the old heat and the binary64 product. *)
Theorem HeatSource_tick_on_float (w : World float) (a b : addr)
        (h : HeatSource float) (r : Rod float) (delta : float) :
  store w !! a = Some (OHeatSource h) ->
  on h = true ->
  target h = Some (VObj b) ->
  store w !! b = Some (ORod r) ->
  (HeatSource_tick a delta w).1 = Ok tt /\
  heat_at b (HeatSource_tick a delta w).2 = Some (heat r + power h * delta).
Proof.
  intros Ha _ Ht Hb.
  rewrite (HeatSource_tick_target w a b h r delta Ha Ht Hb).
  split; [ reflexivity | ]. unfold heat_at. simpl.
  rewrite list_lookup_insert_eq by (eapply lookup_lt_Some; eassumption).
  simpl. rewrite float_mul_comm. reflexivity.
Qed.

Lemma HeatSource_tick_on_float_witness :
  (HeatSource_tick 1%nat 0.5 switched_on).1 = Ok tt /\
  heat_at 0%nat (HeatSource_tick 1%nat 0.5 switched_on).2
  = Some (heat iron_rod + 100 * 0.5).
Proof.
  apply (HeatSource_tick_on_float switched_on 1%nat 0%nat
           (mkHeatSource 100 true (Some (VObj 0%nat))) iron_rod 0.5);
    reflexivity.
Defined.

(** The program's own rod, as the module-level statements build it:
    mass 0.3937 kg, 51846.860238159199 J, exactly 293.0 K, expansion
    factor exactly 1.0; switched on, the 100 W heater adds exactly 100.0 J
    in a tick of one second. *)
Theorem program_rod_on_floats :
  mass iron_rod = 0x1.932617c1bda51p-2 /\
  heat iron_rod = 0x1.950db87122d11p+15 /\
  Rod_temperature iron_rod = Ok 293 /\
  Rod_volumeExpansion iron_rod = Ok 1 /\
  (HeatSource_tick 1%nat 1 switched_on).1 = Ok tt /\
  heat_at 0%nat (HeatSource_tick 1%nat 1 switched_on).2 = Some 0x1.95d5b87122d11p+15 /\
  0x1.95d5b87122d11p+15 - 0x1.950db87122d11p+15 = 100.
Proof. repeat split; vm_compute; reflexivity. Qed.

(** (C1) The program's own heater is off when [main] is done, its target
    is the iron rod, and [heater.tick(1.0)] still returns normally with the
    rod's heat raised by 100 J: the [if] of [HeatSource.tick] guards a
    [pass] only. *)
Theorem HeatSource_tick_off_still_heats :
  store started !! 1%nat = Some (OHeatSource (mkHeatSource 100 false (Some (VObj 0%nat)))) /\
  heat_at 0%nat started = Some 0x1.950db87122d11p+15 /\
  (HeatSource_tick 1%nat 1 started).1 = Ok tt /\
  heat_at 0%nat (HeatSource_tick 1%nat 1 started).2 = Some 0x1.95d5b87122d11p+15 /\
  0x1.95d5b87122d11p+15 = 0x1.950db87122d11p+15 + 100 /\
  0x1.95d5b87122d11p+15 <> 0x1.950db87122d11p+15 /\
  (HeatSource_tick 1%nat 1 target_None).1 = Raise AttributeError.
Proof.
  repeat split; try (vm_compute; reflexivity).
  intros E. discriminate E.
Qed.


(** The iron rod of the program, ticked. *)
Lemma Rod_tick_keeps_physical_witness :
  exists rb',
    store (Rod_tick 0%nat 1 started).2 !! 0%nat = Some (ORod rb') /\
    heat rb' = heat iron_rod /\ STPLength rb' = STPLength iron_rod /\
    STPDiameter rb' = STPDiameter iron_rod /\ mass rb' = mass iron_rod /\
    material rb' = material iron_rod.
Proof.
  apply (Rod_tick_keeps_physical started 0%nat 1 0%nat iron_rod). reflexivity.
Defined.


(** (C4, on floats) On the program's iron rod, [setTemperature(300.0)]
    followed by [temperature()] returns 299.99999999999994. *)
Lemma temperature_round_trip_float_fails :
  (mass iron_rod =? 0) = false /\
  (specificHeat (material iron_rod) =? 0) = false /\
  positive 300 /\
  Rod_temperature (Rod_setTemperature iron_rod 300) = Ok 0x1.2bfffffffffffp+8 /\
  ~ temperature_round_trip iron_rod 300.
Proof.
  repeat split; try (vm_compute; reflexivity).
  intros Ht. vm_compute in Ht. discriminate Ht.
Qed.




End FloatArithmetic.

(** * Further properties of the code *)

Section RodQueries.

Context {F : Type} `{PyNum F}.

Implicit Types (w : World F) (r : Rod F) (h : HeatSource F)
         (a b : addr) (delta : F).

(** ** The queries of a rod *)

Lemma Rod_queries_ok r t :
  Rod_temperature r = Ok t ->
  let dT := py_sub (py_sub t (of_int 273)) (of_int 20) in
  let e := py_add (of_int 1)
             (py_mul (py_mul (expansionCoefficient (material r)) (of_int 3)) dT) in
  Rod_expansionTemperature r = Ok dT /\
  Rod_volumeExpansion r = Ok e /\
  Rod_linearExpansion r = Ok (py_add (of_int 1) (py_mul e dT)) /\
  Rod_length r = Ok (py_mul (STPLength r) e) /\
  Rod_diameter r = Ok (py_mul (STPDiameter r) e).
Proof.
  intros Ht.
  unfold Rod_linearExpansion, Rod_length, Rod_diameter, Rod_volumeExpansion,
         Rod_expansionTemperature.
  rewrite Ht. simpl. auto.
Qed.

Lemma Rod_queries_raise r x :
  Rod_temperature r = Raise x ->
  Rod_expansionTemperature r = Raise x /\
  Rod_volumeExpansion r = Raise x /\
  Rod_linearExpansion r = Raise x /\
  Rod_length r = Raise x /\
  Rod_diameter r = Raise x /\
  Rod_STPVolume r = Raise x /\
  Rod_volume r = Raise x.
Proof.
  intros Ht.
  unfold Rod_volume, Rod_STPVolume, Rod_linearExpansion, Rod_length,
         Rod_diameter, Rod_volumeExpansion, Rod_expansionTemperature.
  rewrite Ht. simpl. auto 10.
Qed.

(** The queries of a rod fail together: [expansionTemperature()],
    [volumeExpansion()], [linearExpansion()], [length()] and [diameter()]
    return whenever [temperature()] returns, and when [temperature()]
    raises they raise the same exception, as do [STPVolume()] and
    [volume()]. *)
Theorem Rod_queries_fail_together r :
  match Rod_temperature r with
  | Ok _ =>
      exists dT e lin len dia,
        Rod_expansionTemperature r = Ok dT /\
        Rod_volumeExpansion r = Ok e /\
        Rod_linearExpansion r = Ok lin /\
        Rod_length r = Ok len /\
        Rod_diameter r = Ok dia
  | Raise x =>
      Rod_expansionTemperature r = Raise x /\
      Rod_volumeExpansion r = Raise x /\
      Rod_linearExpansion r = Raise x /\
      Rod_length r = Raise x /\
      Rod_diameter r = Raise x /\
      Rod_STPVolume r = Raise x /\
      Rod_volume r = Raise x
  end.
Proof.
  destruct (Rod_temperature r) as [t|x] eqn:Ht.
  - destruct (Rod_queries_ok r t Ht) as (H1 & H2 & H3 & H4 & H5).
    eexists _, _, _, _, _. eauto 10.
  - apply Rod_queries_raise. assumption.
Qed.

(** ** [Rod.tick], in full *)

Lemma set_printed_true r : printed r = true -> set_printed r true = r.
Proof. destruct r; simpl. intros ->. reflexivity. Qed.

(** What [Rod.tick] returns and the world it leaves, from the rod's
    [temperature()]. *)
Lemma Rod_tick_spec w a delta r :
  store w !! a = Some (ORod r) ->
  Rod_tick a delta w =
    match Rod_temperature r with
    | Raise x =>
        (Raise x, mkWorld (store w) (stdout w) (clock w) (S (reads w)) (calls w))
    | Ok t =>
        let now := clock w (reads w) in
        (Ok tt,
         mkWorld (<[a := ORod (ticked r now)]> (store w))
                 (stdout w ++ tick_header r ++ tick_row r t now)
                 (clock w) (S (reads w)) (calls w))
    end.
Proof.
  intros Ha. unfold Rod_tick. monad_unfold. simpl. rewrite Ha. simpl.
  destruct (Rod_temperature r) as [t|x] eqn:Ht.
  - destruct (Rod_queries_ok r t Ht) as (_ & _ & _ & Hlen & Hdia).
    rewrite Hlen, Hdia. simpl.
    unfold ticked, tick_header, tick_row.
    assert (Rod_temperature (set_printed r true) = Ok t) as Ht' by exact Ht.
    destruct (printed r) eqn:Hp; simpl.
    + rewrite (set_printed_true r Hp).
      destruct (py_ge _ _); simpl.
      * rewrite Ht. reflexivity.
      * rewrite list_insert_id by assumption.
        rewrite ?app_nil_r. destruct w; reflexivity.
    + destruct (py_ge _ _); simpl.
      * rewrite Ht'. simpl. rewrite list_insert_insert_eq.
        rewrite <- ?app_assoc. reflexivity.
      * rewrite ?app_nil_r, <- ?app_assoc. reflexivity.
  - destruct (Rod_queries_raise r x Ht) as (_ & _ & _ & Hlen & _).
    rewrite Hlen. reflexivity.
Qed.

(** [Rod.tick] raises exactly when the rod's [temperature()] raises, and
    with the same exception; it has then read the clock and done nothing
    else: nothing is printed and no object has changed.  Otherwise it
    returns. *)
Theorem Rod_tick_outcome w a delta r :
  store w !! a = Some (ORod r) ->
  match Rod_temperature r with
  | Raise x =>
      Rod_tick a delta w
      = (Raise x, mkWorld (store w) (stdout w) (clock w) (S (reads w)) (calls w))
  | Ok _ => (Rod_tick a delta w).1 = Ok tt
  end.
Proof.
  intros Ha. rewrite (Rod_tick_spec w a delta r Ha).
  destruct (Rod_temperature r); reflexivity.
Qed.

(** A tick that returns has read the clock once, as [now]; it has printed
    the header and the rule if the rod had not printed them before, and
    then one row if [now - lastPrint >= 1.0], and nothing else.  The row
    shows the heat, the growth of length and diameter, the temperature
    less 273.0 and the elapsed time.  The rod has [printed] set and
    [lastPrint] moved on by 1.0 if the row was printed, and is otherwise
    as before. *)
Theorem Rod_tick_report w a delta r :
  store w !! a = Some (ORod r) ->
  (Rod_tick a delta w).1 = Ok tt ->
  let now := clock w (reads w) in
  let due := py_ge (py_sub now (lastPrint r)) (of_int 1) in
  let w' := (Rod_tick a delta w).2 in
  exists t len dia r',
    Rod_temperature r = Ok t /\ Rod_length r = Ok len /\ Rod_diameter r = Ok dia /\
    reads w' = S (reads w) /\
    stdout w' =
      stdout w
      ++ (if printed r then [] else [Text header; Text rule])
      ++ (if due
          then [Row (heat r) (py_sub len (STPLength r)) (py_sub dia (STPDiameter r))
                    (py_sub t (of_int 273)) (py_sub now (lastPrint r))]
          else []) /\
    store w' !! a = Some (ORod r') /\
    printed r' = true /\
    lastPrint r' = (if due then py_add (lastPrint r) (of_int 1) else lastPrint r) /\
    physical r' = physical r.
Proof.
  intros Ha Hok. simpl.
  rewrite (Rod_tick_spec w a delta r Ha) in *.
  destruct (Rod_temperature r) as [t|x] eqn:Ht; [ | discriminate Hok ].
  destruct (Rod_queries_ok r t Ht) as (_ & _ & _ & Hlen & Hdia).
  eexists t, _, _, (ticked r (clock w (reads w))).
  split; [ reflexivity | ]. split; [ exact Hlen | ]. split; [ exact Hdia | ].
  simpl. split; [ reflexivity | ]. split.
  { unfold tick_header, tick_row. reflexivity. }
  split.
  { apply list_lookup_insert_eq. eapply lookup_lt_Some; eassumption. }
  unfold ticked. destruct (py_ge _ _); auto.
Qed.

(** ** [HeatSource.tick], in full *)

Lemma HeatSource_tick_spec w a h delta :
  store w !! a = Some (OHeatSource h) ->
  HeatSource_tick a delta w =
    match target h with
    | Some (VObj b) =>
        match store w !! b with
        | Some (ORod r) =>
            (Ok tt,
             set_store w
               (<[b := ORod (Rod_modifyHeat r (py_mul delta (power h)))]> (store w)))
        | _ => (Raise AttributeError, w)
        end
    | _ => (Raise AttributeError, w)
    end.
Proof.
  intros Ha.
  unfold HeatSource_tick, getattr_target, call_modifyHeat, Rod_modifyHeat_at.
  monad_unfold. rewrite Ha. simpl.
  destruct (target h) as [[|b]|]; simpl; try reflexivity.
  destruct (on h); simpl; destruct (store w !! b) as [[r|h']|]; reflexivity.
Qed.

(** [HeatSource.tick] either raises [AttributeError] and leaves the world
    as it was, or returns, having added [delta * power] to the heat of
    its target and changed nothing else.  It returns exactly when
    [target] holds a rod; it raises when [target] was never set, is
    [None], or is an object that is not a rod.  The [on] flag has no part
    in it, and neither console nor clock is touched. *)
Theorem HeatSource_tick_outcome w a h delta :
  store w !! a = Some (OHeatSource h) ->
  let res := (HeatSource_tick a delta w).1 in
  let w' := (HeatSource_tick a delta w).2 in
  stdout w' = stdout w /\ reads w' = reads w /\ calls w' = calls w /\
  match target h with
  | Some (VObj b) =>
      match store w !! b with
      | Some (ORod r) =>
          res = Ok tt /\
          store w' = <[b := ORod (set_heat r (py_add (heat r) (py_mul delta (power h))))]>
                       (store w)
      | _ => res = Raise AttributeError /\ w' = w
      end
  | _ => res = Raise AttributeError /\ w' = w
  end.
Proof.
  intros Ha. simpl. rewrite (HeatSource_tick_spec w a h delta Ha).
  destruct (target h) as [[|b]|]; simpl; auto.
  destruct (store w !! b) as [[r|h']|]; simpl; auto.
Qed.

(** Switching a heat source off does not stop it: a tick after
    [turnOff()] has the same result and leaves the same store and console
    as a tick after [turnOn()], up to the flag itself. *)
Theorem HeatSource_turnOff_does_not_stop w a h delta :
  store w !! a = Some (OHeatSource h) ->
  let off := (HeatSource_turnOff a w).2 in
  let on' := (HeatSource_turnOn a w).2 in
  store off !! a = Some (OHeatSource (mkHeatSource (power h) false (target h))) /\
  store on' !! a = Some (OHeatSource (mkHeatSource (power h) true (target h))) /\
  (HeatSource_tick a delta off).1 = (HeatSource_tick a delta on').1 /\
  (forall b, b <> a ->
     store (HeatSource_tick a delta off).2 !! b
     = store (HeatSource_tick a delta on').2 !! b) /\
  stdout (HeatSource_tick a delta off).2 = stdout (HeatSource_tick a delta on').2.
Proof.
  intros Ha. pose proof (lookup_lt_Some _ _ _ Ha) as Hlt. simpl.
  set (hoff := mkHeatSource (power h) false (target h)).
  set (hon := mkHeatSource (power h) true (target h)).
  assert (HeatSource_turnOff a w = (Ok tt, set_store w (<[a := OHeatSource hoff]> (store w))))
    as -> by (unfold HeatSource_turnOff; monad_unfold; rewrite Ha; reflexivity).
  assert (HeatSource_turnOn a w = (Ok tt, set_store w (<[a := OHeatSource hon]> (store w))))
    as -> by (unfold HeatSource_turnOn; monad_unfold; rewrite Ha; reflexivity).
  simpl.
  assert (<[a := OHeatSource hoff]> (store w) !! a = Some (OHeatSource hoff)) as Hoff
    by (apply list_lookup_insert_eq; assumption).
  assert (<[a := OHeatSource hon]> (store w) !! a = Some (OHeatSource hon)) as Hon
    by (apply list_lookup_insert_eq; assumption).
  split; [ exact Hoff | ]. split; [ exact Hon | ].
  rewrite (HeatSource_tick_spec (set_store w (<[a := OHeatSource hoff]> (store w)))
             a hoff delta Hoff).
  rewrite (HeatSource_tick_spec (set_store w (<[a := OHeatSource hon]> (store w)))
             a hon delta Hon). simpl.
  destruct (target h) as [[|b]|]; simpl;
    try (split; [ reflexivity | split; [ | reflexivity ] ];
         intros c Hc; rewrite !list_lookup_insert_ne by congruence; reflexivity).
  destruct (decide (b = a)) as [->|Hba].
  - rewrite Hoff, Hon. simpl.
    split; [ reflexivity | split; [ | reflexivity ] ].
    intros c Hc. rewrite !list_lookup_insert_ne by congruence. reflexivity.
  - assert (forall x : object F, <[a := x]> (store w) !! b = store w !! b) as Hb
      by (intros x; apply list_lookup_insert_ne; congruence).
    rewrite !Hb.
    destruct (store w !! b) as [[r|h']|] eqn:Eb; simpl;
      (split; [ reflexivity | split; [ | reflexivity ] ]);
      intros c Hc; try (rewrite !list_lookup_insert_ne by congruence; reflexivity).
    destruct (decide (c = b)) as [->|Hcb].
    + rewrite !list_lookup_insert_eq; [ reflexivity | | ];
        rewrite length_insert; eapply lookup_lt_Some; eassumption.
    + rewrite !list_lookup_insert_ne by congruence. reflexivity.
Qed.

(** The last [setTarget] and the last [setPower] decide what a tick
    does: after [setTarget(rod)] and [setPower(p)], in either order and
    whatever target, power and flag the heat source had, [tick(delta)]
    returns and adds [delta * p] to the heat of that rod. *)
Theorem HeatSource_last_settings_win w a h b r p delta :
  store w !! a = Some (OHeatSource h) ->
  store w !! b = Some (ORod r) ->
  let w1 := (HeatSource_setPower a p (HeatSource_setTarget a (VObj b) w).2).2 in
  let w2 := (HeatSource_setTarget a (VObj b) (HeatSource_setPower a p w).2).2 in
  store w1 !! a = Some (OHeatSource (mkHeatSource p (on h) (Some (VObj b)))) /\
  w2 = w1 /\
  (HeatSource_tick a delta w1).1 = Ok tt /\
  heat_at b (HeatSource_tick a delta w1).2 = Some (py_add (heat r) (py_mul delta p)).
Proof.
  intros Ha Hb. pose proof (lookup_lt_Some _ _ _ Ha) as Hlt.
  assert (a <> b) as Hab by (intros ->; congruence).
  simpl.
  unfold HeatSource_setTarget, HeatSource_setPower. monad_unfold.
  rewrite Ha. simpl. rewrite !list_lookup_insert_eq by assumption. simpl.
  rewrite !list_insert_insert_eq.
  split; [ apply list_lookup_insert_eq; assumption | ].
  split; [ reflexivity | ].
  match goal with |- context [HeatSource_tick a delta ?w0] =>
    remember w0 as w1 eqn:E1 end.
  assert (store w1 !! a = Some (OHeatSource (mkHeatSource p (on h) (Some (VObj b)))))
    as Ha1 by (subst w1; apply list_lookup_insert_eq; assumption).
  assert (store w1 !! b = Some (ORod r)) as Hb1
    by (subst w1; simpl; rewrite list_lookup_insert_ne by assumption; exact Hb).
  rewrite (HeatSource_tick_spec w1 a _ delta Ha1). simpl. rewrite Hb1.
  split; [ reflexivity | ].
  unfold heat_at. simpl.
  rewrite list_lookup_insert_eq by (eapply lookup_lt_Some; eassumption).
  reflexivity.
Qed.

(** ** [Simulation.tick]: what it keeps *)

Lemma same_objects_refl (s : list (object F)) : same_objects s s.
Proof. split; [ reflexivity | ]. split; eauto. Qed.

Lemma same_objects_trans (s1 s2 s3 : list (object F)) :
  same_objects s1 s2 -> same_objects s2 s3 -> same_objects s1 s3.
Proof.
  intros (L1 & H1 & R1) (L2 & H2 & R2). split; [ congruence | ]. split.
  - eauto.
  - intros a r Ha. destruct (R1 a r Ha) as (r' & Ha' & Hb').
    destruct (R2 a r' Ha') as (r'' & Ha'' & Hb''). exists r''. split; congruence.
Qed.

Lemma same_objects_insert (s : list (object F)) a r r' :
  s !! a = Some (ORod r) -> built r' = built r ->
  same_objects s (<[a := ORod r']> s).
Proof.
  intros Ha Hb. pose proof (lookup_lt_Some _ _ _ Ha) as Hlt.
  split; [ apply length_insert | ]. split.
  - intros c h Hc. rewrite list_lookup_insert_ne by (intros ->; congruence).
    exact Hc.
  - intros c rc Hc. destruct (decide (a = c)) as [->|Hne].
    + exists r'. split; [ apply list_lookup_insert_eq; assumption | congruence ].
    + exists rc. rewrite list_lookup_insert_ne by assumption. auto.
Qed.

Lemma call_tick_same_objects (obj : value) delta w :
  same_objects (store w) (store (call_tick obj delta w).2).
Proof.
  unfold call_tick. monad_unfold. simpl.
  destruct obj as [|a]; simpl; [ apply same_objects_refl | ].
  destruct (store w !! a) as [[r|h]|] eqn:Ha; simpl.
  - match goal with |- context [Rod_tick a delta ?w0] =>
      destruct (Rod_tick_effect w0 a delta) as [_ [E | (r0 & r' & Ha' & Hp & E)]] end.
    + rewrite E. apply same_objects_refl.
    + rewrite E. simpl. eapply same_objects_insert; [ eassumption | ].
      unfold physical in Hp. congruence.
  - match goal with |- context [HeatSource_tick a delta ?w0] =>
      rewrite (HeatSource_tick_spec w0 a h delta Ha) end. simpl.
    destruct (target h) as [[|b]|]; simpl; try apply same_objects_refl.
    destruct (store w !! b) as [[r|h']|] eqn:Hb; simpl; try apply same_objects_refl.
    eapply same_objects_insert; [ eassumption | reflexivity ].
  - apply same_objects_refl.
Qed.

Lemma for_each_same_objects (l : list value) delta : forall w,
  same_objects (store w) (store (for_each l (fun obj => call_tick obj delta) w).2).
Proof.
  induction l as [|x l IH]; intros w; simpl.
  - apply same_objects_refl.
  - monad_unfold. pose proof (call_tick_same_objects x delta w) as Hx.
    destruct (call_tick x delta w) as [[u|e] w1]; simpl in *; [ | exact Hx ].
    eapply same_objects_trans; [ exact Hx | apply IH ].
Qed.

(** Whether it returns or raises, [Simulation.tick] neither adds nor
    removes an object, leaves every heat source exactly as it was (power,
    flag and target), and leaves every rod with the [STPLength],
    [STPDiameter], [mass] and [material] it had. *)
Theorem Simulation_tick_keeps_objects (sim : Simulation) delta w :
  let w' := (Simulation_tick sim delta w).2 in
  length (store w') = length (store w) /\
  (forall a h, store w !! a = Some (OHeatSource h) ->
               store w' !! a = Some (OHeatSource h)) /\
  (forall a r, store w !! a = Some (ORod r) ->
     exists r', store w' !! a = Some (ORod r') /\
       STPLength r' = STPLength r /\ STPDiameter r' = STPDiameter r /\
       mass r' = mass r /\ material r' = material r).
Proof.
  simpl. destruct (for_each_same_objects (objects sim) delta w) as (L & Hh & Hr).
  split; [ exact L | ]. split; [ exact Hh | ].
  intros a r Ha. destruct (Hr a r Ha) as (r' & Ha' & Hb).
  exists r'. split; [ exact Ha' | ].
  unfold built in Hb. injection Hb as -> -> -> ->. auto.
Qed.

(** Registration and ticking compose: the simulation with one more
    object ticks the objects it had, in the same way, and then, unless
    one of them raised, the new object, in the world they left. *)
Theorem Simulation_tick_addObject (sim : Simulation) (obj : value) delta w :
  Simulation_tick (Simulation_addObject sim obj) delta w =
    match Simulation_tick sim delta w with
    | (Ok _, w1) => call_tick obj delta w1
    | (Raise e, w1) => (Raise e, w1)
    end.
Proof.
  unfold Simulation_tick, Simulation_addObject. simpl.
  generalize (objects sim) w. clear sim w.
  induction l as [|x l IH]; intros w; simpl.
  - monad_unfold. destruct (call_tick obj delta w) as [[[]|e] w1]; reflexivity.
  - monad_unfold. destruct (call_tick x delta w) as [[u|e] w1]; [ | reflexivity ].
    apply IH.
Qed.

(** ** [Simulation.run] *)

Lemma names_rod_same w w' (obj : value) :
  same_objects (store w) (store w') -> names_rod w' obj = names_rod w obj.
Proof.
  intros (L & Hh & Hr). destruct obj as [|a]; [ reflexivity | ].
  unfold names_rod.
  destruct (store w !! a) as [[r|h]|] eqn:Ha.
  - destruct (Hr a r Ha) as (r' & Ha' & _). rewrite Ha'. reflexivity.
  - rewrite (Hh a h Ha). reflexivity.
  - assert (store w' !! a = None) as Ha'.
    { apply lookup_ge_None. rewrite L. apply lookup_ge_None. exact Ha. }
    rewrite Ha'. reflexivity.
Qed.

Lemma rod_entries_same w w' (l : list value) :
  same_objects (store w) (store w') -> rod_entries w' l = rod_entries w l.
Proof.
  intros Hs. unfold rod_entries. f_equal.
  apply List.filter_ext. intros obj. apply names_rod_same. exact Hs.
Qed.

(** A dispatched tick reads the clock once if the object is a rod and
    not at all otherwise, and never sets the clock. *)
Lemma call_tick_reads (obj : value) delta w :
  reads (call_tick obj delta w).2
  = reads w + (if names_rod w obj then 1 else 0) /\
  clock (call_tick obj delta w).2 = clock w.
Proof.
  unfold call_tick. monad_unfold. simpl.
  destruct obj as [|a]; simpl; [ split; [ lia | reflexivity ] | ].
  destruct (store w !! a) as [[r|h]|] eqn:Ha; simpl.
  - match goal with |- context [Rod_tick a delta ?w0] =>
      rewrite (Rod_tick_spec w0 a delta r Ha) end.
    destruct (Rod_temperature r); simpl; split; (lia || reflexivity).
  - match goal with |- context [HeatSource_tick a delta ?w0] =>
      rewrite (HeatSource_tick_spec w0 a h delta Ha) end.
    destruct (target h) as [[|b]|]; simpl; try (split; (lia || reflexivity)).
    destruct (store w !! b) as [[r|h']|]; simpl; split; (lia || reflexivity).
  - split; (lia || reflexivity).
Qed.

Lemma for_each_reads (l : list value) delta : forall w u w',
  for_each l (fun obj => call_tick obj delta) w = (Ok u, w') ->
  reads w' = reads w + rod_entries w l /\ clock w' = clock w.
Proof.
  induction l as [|x l IH]; intros w u w' Hrun; simpl in Hrun.
  - injection Hrun as _ <-. unfold rod_entries. simpl. split; [ lia | reflexivity ].
  - monad_unfold.
    destruct (call_tick_reads x delta w) as [Hr Hc].
    pose proof (call_tick_same_objects x delta w) as Hs.
    destruct (call_tick x delta w) as [[v|e] w1]; [ | discriminate Hrun ].
    simpl in Hr, Hc, Hs.
    destruct (IH w1 u w' Hrun) as [Hr' Hc'].
    rewrite (rod_entries_same w w1 l Hs) in Hr'.
    split; [ | congruence ].
    unfold rod_entries in *. simpl. destruct (names_rod w x); simpl; lia.
Qed.

Section Loop.

Variables (step : F) (sim : Simulation) (w0 : World F).

Let c := clock w0.
Let i0 := reads w0.
Let R := rod_entries w0 (objects sim).

Lemma run_loop_passes (n : nat) : forall k p now prev now' prev' p',
  same_objects (store w0) (store (world p)) ->
  clock (world p) = c ->
  reads (world p) = i0 + k * S R + 1 ->
  now = run_reading c i0 R k ->
  prev = run_reading c i0 R (pred k) ->
  run_loop n step sim now prev p = (Ok (now', prev'), p') ->
  now' = run_reading c i0 R (k + n) /\
  prev' = run_reading c i0 R (pred (k + n)) /\
  same_objects (store w0) (store (world p')) /\
  clock (world p') = c /\
  reads (world p') = i0 + (k + n) * S R + 1 /\
  calls (world p')
  = calls (world p)
    ++ List.flat_map (fun j => map (fun obj => (obj, run_delta c i0 R j)) (objects sim))
                     (List.seq k n) /\
  slept p' = slept p ++ List.flat_map (run_sleep step c i0 R) (List.seq k n).
Proof.
  induction n as [|n IH]; intros k p now prev now' prev' p' Hs Hc Hr Hnow Hprev Hrun.
  - simpl in Hrun. injection Hrun as <- <- <-. rewrite Nat.add_0_r. simpl.
    rewrite !app_nil_r. auto 10.
  - simpl in Hrun. unfold run_body at 1 in Hrun.
    pose proof (for_each_call_tick (objects sim) (py_sub now prev) (world p)) as Hcalls.
    pose proof (for_each_same_objects (objects sim) (py_sub now prev) (world p)) as Hs1.
    pose proof (for_each_reads (objects sim) (py_sub now prev) (world p)) as Hreads.
    fold (Simulation_tick sim (py_sub now prev)) in Hcalls, Hs1, Hreads.
    destruct (Simulation_tick sim (py_sub now prev) (world p)) as [[u|e] w1];
      [ | discriminate Hrun ].
    destruct (Hreads u w1 eq_refl) as [Hr1 Hc1]. simpl in Hs1.
    rewrite (rod_entries_same w0 (world p) (objects sim) Hs) in Hr1. fold R in Hr1.
    assert (same_objects (store w0) (store w1)) as Hs01
      by (eapply same_objects_trans; eassumption).
    assert (py_sub now prev = run_delta c i0 R k) as Hd
      by (unfold run_delta; congruence).
    simpl in Hrun.
    match type of Hrun with run_loop n step sim ?nw ?pv ?q = _ =>
      destruct (IH (S k) q nw pv now' prev' p') as (E1 & E2 & E3 & E4 & E5 & E6 & E7)
    end; try exact Hrun; simpl; try assumption.
    + congruence.
    + rewrite Hr1, Hr. lia.
    + unfold run_reading. rewrite Hc1, Hc, Hr1, Hr. f_equal. lia.
    + replace (k + S n) with (S k + n) by lia.
      split; [ exact E1 | ]. split; [ exact E2 | ]. split; [ exact E3 | ].
      split; [ exact E4 | ]. split; [ exact E5 | ].
      simpl in E6, E7. split.
      * rewrite E6, Hcalls, Hd, <- app_assoc. reflexivity.
      * rewrite E7. unfold run_sleep at 2. rewrite <- Hd.
        destruct (py_lt (py_sub now prev) step); simpl;
          rewrite <- ?app_assoc; reflexivity.
Qed.

End Loop.



(** The sleeps of the loop are all of the form [STEP - delta] with
    [delta < STEP]. *)
Lemma run_loop_slept (P : F -> Prop) step sim :
  (forall d, py_lt d step = true -> P (py_sub step d)) ->
  forall (n : nat) now prev p,
    Forall P (slept p) -> Forall P (slept (run_loop n step sim now prev p).2).
Proof.
  intros HP. induction n as [|n IH]; intros now prev p Hp; simpl; [ exact Hp | ].
  unfold run_body, time_time.
  destruct (Simulation_tick sim (py_sub now prev) (world p)) as [[u|x] w1]; simpl;
    [ | exact Hp ].
  apply IH. simpl.
  destruct (py_lt (py_sub now prev) step) eqn:Hlt; [ | exact Hp ].
  apply Forall_app. split; [ exact Hp | ].
  constructor; [ apply HP; exact Hlt | constructor ].
Qed.

(** As long as no tick raises, pass [k] of the loop of [run] (counting
    from 0) ticks every registered object, in registration order, with
    the same [delta]: the reading of the clock the loop took at the end of
    pass [k - 1] less the one it took at the end of pass [k - 2]; in pass
    1 the latter is the reading taken before the loop, and in pass 0 both
    are.  The loop sleeps [STEP - delta] in the passes with
    [delta < STEP] and in no other.  Between two of its own readings the
    clock is read once by every tick of a rod. *)
Theorem Simulation_run_passes (fuel : nat) (sim : Simulation) (p p' : Process)
        (now prev : F) :
  Simulation_run fuel sim p = (Ok (now, prev), p') ->
  let c := clock (world p) in
  let i0 := reads (world p) in
  let R := rod_entries (world p) (objects sim) in
  exists step,
    STEP = Ok step /\
    now = run_reading c i0 R fuel /\
    prev = run_reading c i0 R (pred fuel) /\
    reads (world p') = i0 + fuel * S R + 1 /\
    calls (world p')
    = calls (world p)
      ++ List.flat_map
           (fun k => map (fun obj => (obj, run_delta c i0 R k)) (objects sim))
           (List.seq 0 fuel) /\
    slept p' = slept p ++ List.flat_map (run_sleep step c i0 R) (List.seq 0 fuel).
Proof.
  unfold Simulation_run, time_time. intros Hrun. simpl.
  destruct STEP as [step|x]; [ | discriminate Hrun ].
  exists step. split; [ reflexivity | ].
  eapply (run_loop_passes step sim (world p) fuel 0) in Hrun
    as (E1 & E2 & _ & _ & E5 & E6 & E7); simpl.
  - auto 10.
  - apply same_objects_refl.
  - reflexivity.
  - lia.
  - unfold run_reading. f_equal. lia.
  - unfold run_reading. f_equal. lia.
Qed.


(** ** The table header *)

Lemma filter_insert_length (f : object F -> bool) (s : list (object F)) a x y :
  s !! a = Some y ->
  length (List.filter f (<[a := x]> s)) + (if f y then 1 else 0)
  = length (List.filter f s) + (if f x then 1 else 0).
Proof.
  intros Ha. pose proof (lookup_lt_Some _ _ _ Ha) as Hlt.
  rewrite insert_take_drop by assumption.
  pose proof (take_drop_middle s a y Ha) as E.
  remember (take a s) as l1. remember (drop (S a) s) as l2.
  rewrite <- E. rewrite !List.filter_app. simpl.
  destruct (f x), (f y); rewrite !length_app; simpl; lia.
Qed.

Lemma ticked_printed r (now : F) : printed (ticked r now) = true.
Proof. unfold ticked. destruct (py_ge _ _); reflexivity. Qed.

Section HeaderCount.

(** [f] picks one of the two lines of the header and no row. *)
Variable f : line F -> bool.
Hypothesis f_header : length (List.filter f [Text header; Text rule]) = 1.
Hypothesis f_row : forall x1 x2 x3 x4 x5 : F, f (Row x1 x2 x3 x4 x5) = false.

Lemma call_tick_header_count (obj : value) delta w :
  count_lines f (call_tick obj delta w).2 + unprinted (call_tick obj delta w).2
  = count_lines f w + unprinted w.
Proof using f_header f_row.
  unfold call_tick. monad_unfold. simpl.
  destruct obj as [|a]; simpl; [ reflexivity | ].
  destruct (store w !! a) as [[r|h]|] eqn:Ha; simpl; [ | | reflexivity ].
  - match goal with |- context [Rod_tick a delta ?w0] =>
      rewrite (Rod_tick_spec w0 a delta r Ha) end.
    destruct (Rod_temperature r) as [t|x]; simpl; [ | reflexivity ].
    unfold count_lines, unprinted. simpl.
    pose proof (filter_insert_length is_unprinted (store w) a
                  (ORod (ticked r (clock w (reads w)))) (ORod r) Ha) as Hs.
    simpl in Hs. rewrite ticked_printed in Hs. simpl in Hs.
    rewrite !List.filter_app, !length_app.
    assert (length (List.filter f (tick_row r t (clock w (reads w)))) = 0) as ->.
    { unfold tick_row. destruct (py_ge _ _); simpl; [ rewrite f_row | ]; reflexivity. }
    unfold tick_header. destruct (printed r); simpl in *.
    + lia.
    + rewrite f_header. lia.
  - match goal with |- context [HeatSource_tick a delta ?w0] =>
      rewrite (HeatSource_tick_spec w0 a h delta Ha) end. simpl.
    destruct (target h) as [[|b]|]; simpl; try reflexivity.
    destruct (store w !! b) as [[r|h']|] eqn:Hb; simpl; try reflexivity.
    unfold count_lines, unprinted. simpl.
    pose proof (filter_insert_length is_unprinted (store w) b
                  (ORod (Rod_modifyHeat r (py_mul delta (power h)))) (ORod r) Hb) as Hs.
    simpl in Hs. destruct (printed r); simpl in Hs; lia.
Qed.

Lemma for_each_header_count (l : list value) delta : forall w,
  let w' := (for_each l (fun obj => call_tick obj delta) w).2 in
  count_lines f w' + unprinted w' = count_lines f w + unprinted w.
Proof using f_header f_row.
  induction l as [|x l IH]; intros w; simpl; [ reflexivity | ].
  monad_unfold. pose proof (call_tick_header_count x delta w) as Hx.
  destruct (call_tick x delta w) as [[u|e] w1]; simpl in *; [ | exact Hx ].
  rewrite <- Hx. apply IH.
Qed.

End HeaderCount.

(** The header is printed once per rod, not once per program.  Through
    any [Simulation.tick], returning or raising, the number of header
    lines on the console plus the number of rods of the store that have
    not printed yet stays the same, and so for the rule under the header:
    a rod prints both at its first tick that does not raise and never
    again, and a second rod prints them a second time. *)
Theorem Simulation_tick_headers (sim : Simulation) delta w :
  let w' := (Simulation_tick sim delta w).2 in
  count_lines is_header w' + unprinted w' = count_lines is_header w + unprinted w /\
  count_lines is_rule w' + unprinted w' = count_lines is_rule w + unprinted w.
Proof.
  split.
  - apply (for_each_header_count is_header); [ reflexivity | reflexivity ].
  - apply (for_each_header_count is_rule); [ reflexivity | reflexivity ].
Qed.

End RodQueries.

(** ** More of the binary64 arithmetic *)

Section FloatFacts.

Local Open Scope Z_scope.

(** *** The sign of a difference *)

Lemma iter_xO_value (m d : BinNums.positive) :
  Zpos (Pos.iter xO m d) = Zpos m * 2 ^ Zpos d.
Proof.
  induction d as [|d IH] using Pos.peano_ind.
  - simpl. lia.
  - rewrite Pos.iter_succ, Pos2Z.inj_succ, Z.pow_succ_r by lia.
    rewrite Pos2Z.inj_xO, IH. lia.
Qed.

Lemma shl_align_value (m : BinNums.positive) (e ez : Z) :
  ez <= e -> Zpos (fst (shl_align m e ez)) = Zpos m * 2 ^ (e - ez).
Proof.
  intros Hle. unfold shl_align.
  destruct (ez - e) as [|d|d] eqn:E.
  - replace (e - ez) with 0 by lia. cbn [fst]. rewrite Z.pow_0_r. lia.
  - lia.
  - cbn [fst]. rewrite iter_xO_value. f_equal. f_equal. lia.
Qed.

Lemma digits2_size (m : BinNums.positive) : digits2_pos m = Pos.size m.
Proof. induction m; simpl; congruence. Qed.

Lemma digits2_upper (m : BinNums.positive) : Zpos m < 2 ^ Zpos (digits2_pos m).
Proof.
  rewrite digits2_size. pose proof (Pos.size_gt m) as Hm.
  apply Pos2Z.pos_lt_pos in Hm. rewrite Pos2Z.inj_pow in Hm. exact Hm.
Qed.

Lemma digits2_lower (m : BinNums.positive) : 2 ^ Zpos (digits2_pos m) <= 2 * Zpos m.
Proof.
  rewrite digits2_size. pose proof (Pos.size_le m) as Hm.
  apply Pos2Z.pos_le_pos in Hm. rewrite Pos2Z.inj_pow in Hm. exact Hm.
Qed.

(** A finite binary64 number has a mantissa of at most 53 digits, and of
    exactly 53 above the least exponent. *)
Lemma bounded_digits (m : BinNums.positive) (e : Z) :
  bounded prec emax m e = true ->
  -1074 <= e /\ Zpos (digits2_pos m) <= 53 /\
  (-1074 < e -> Zpos (digits2_pos m) = 53).
Proof.
  unfold bounded, canonical_mantissa, fexp, SpecFloat.emin, prec, emax.
  intros Hb. apply andb_true_iff in Hb as [Hb _]. apply Z.eqb_eq in Hb. lia.
Qed.

Lemma bounded_order (m1 m2 : BinNums.positive) (e1 e2 : Z) :
  bounded prec emax m1 e1 = true -> bounded prec emax m2 e2 = true ->
  e1 < e2 -> Zpos m1 < Zpos m2 * 2 ^ (e2 - e1).
Proof.
  intros B1 B2 Hlt.
  destruct (bounded_digits m1 e1 B1) as (L1 & D1 & _).
  destruct (bounded_digits m2 e2 B2) as (_ & _ & D2).
  specialize (D2 ltac:(lia)).
  pose proof (digits2_upper m1) as U1. pose proof (digits2_lower m2) as L2.
  rewrite D2 in L2.
  assert (2 ^ Zpos (digits2_pos m1) <= 2 ^ 53) as P1
    by (apply Z.pow_le_mono_r; lia).
  assert (2 ^ 1 <= 2 ^ (e2 - e1)) as P2 by (apply Z.pow_le_mono_r; lia).
  change (2 ^ 1) with 2 in P2.
  nia.
Qed.

Lemma not_negative_ltb_zero x :
  not_negative x -> SFltb x (S754_zero false) = false.
Proof. destruct x as [s|s| |s m e]; simpl; intros Hs; subst; reflexivity. Qed.

Lemma binary_round_aux_sign s m e l :
  match binary_round_aux prec emax s m e l with
  | S754_zero s' | S754_infinity s' | S754_finite s' _ _ => s' = s
  | S754_nan => True
  end.
Proof.
  unfold binary_round_aux.
  destruct (shr_fexp prec emax m e l) as [mrs' e'].
  destruct (shr_fexp prec emax _ e' loc_Exact) as [mrs'' e''].
  destruct (shr_m mrs''); [ reflexivity | | exact I ].
  destruct (Z.leb e'' _); reflexivity.
Qed.

Lemma binary_normalize_not_negative (m e : Z) :
  0 <= m -> not_negative (binary_normalize prec emax m e false).
Proof.
  intros Hm. destruct m as [|p|p]; simpl; [ exact I | | lia ].
  unfold binary_round. destruct (shl_align _ _ _) as [mz ez].
  pose proof (binary_round_aux_sign false (Zpos mz) ez loc_Exact) as Hs.
  destruct (binary_round_aux _ _ _ _ _ _); simpl; auto.
Qed.

Lemma SFsub_not_negative (x y : spec_float) :
  valid_binary x = true -> valid_binary y = true ->
  SFltb x y = true -> not_negative (SFsub prec emax y x).
Proof.
  intros Vx Vy Hlt. unfold SFltb in Hlt.
  destruct x as [sx|sx| |sx mx ex], y as [sy|sy| |sy my ey]; simpl in Vx, Vy, Hlt;
    try discriminate;
    try (destruct sx; try discriminate; destruct sy; try discriminate;
         simpl; auto; fail).
  change (PosDef.Pos.compare_cont Eq mx my) with (Pos.compare mx my) in Hlt.
  cbn [SFsub]. apply binary_normalize_not_negative.
  assert (Z.min ey ex <= ey) as Hy by lia.
  assert (Z.min ey ex <= ex) as Hx by lia.
  rewrite (shl_align_value my ey _ Hy), (shl_align_value mx ex _ Hx).
  assert (0 < 2 ^ (ey - Z.min ey ex)) as Py by (apply Z.pow_pos_nonneg; lia).
  assert (0 < 2 ^ (ex - Z.min ey ex)) as Px by (apply Z.pow_pos_nonneg; lia).
  destruct sx, sy; cbn [cond_Zopp]; try discriminate.
  - destruct (Z.compare_spec ex ey) as [E|E|E]; try discriminate.
    + subst. rewrite Z.min_id, Z.sub_diag, Z.pow_0_r.
      destruct (Pos.compare_spec mx my); simpl in Hlt; try discriminate. lia.
    + pose proof (bounded_order my mx ey ex Vy Vx E) as B.
      rewrite Z.min_l in * by lia. rewrite Z.sub_diag, Z.pow_0_r. lia.
  - nia.
  - destruct (Z.compare_spec ex ey) as [E|E|E]; try discriminate.
    + subst. rewrite Z.min_id, Z.sub_diag, Z.pow_0_r.
      destruct (Pos.compare_spec mx my); simpl in Hlt; try discriminate. lia.
    + pose proof (bounded_order mx my ex ey Vx Vy E) as B.
      rewrite Z.min_r in * by lia. rewrite Z.sub_diag, Z.pow_0_r. lia.
Qed.

(** For all binary64 numbers, [x < y] excludes [y - x < 0]. *)
Lemma float_sub_not_negative (x y : float) :
  (x <? y)%float = true -> (y - x <? 0)%float = false.
Proof.
  intros Hlt. rewrite ltb_spec in Hlt |- *. rewrite sub_spec.
  change (Prim2SF 0) with (S754_zero false).
  apply not_negative_ltb_zero, SFsub_not_negative; auto using Prim2SF_valid.
Qed.

(** *** Finite numbers *)

Lemma is_finite_spec (x : float) :
  is_finite x = true ->
  match Prim2SF x with
  | S754_zero _ | S754_finite _ _ _ => True
  | _ => False
  end.
Proof.
  unfold is_finite, is_nan, is_infinity.
  rewrite !FloatAxioms.eqb_spec, abs_spec.
  change (Prim2SF infinity) with (S754_infinity false).
  destruct (Prim2SF x) as [s|s| |s m e]; simpl; auto; try discriminate.
  destruct s; discriminate.
Qed.

(** [x - x] is [0.0] for every finite [x]. *)
Lemma float_sub_diag (x : float) : is_finite x = true -> (x - x = 0)%float.
Proof.
  intros Hx. apply is_finite_spec in Hx.
  apply Prim2SF_inj. rewrite sub_spec.
  change (Prim2SF 0) with (S754_zero false).
  destruct (Prim2SF x) as [s|s| |s m e]; try contradiction.
  - destruct s; reflexivity.
  - cbn [SF64sub SFsub]. rewrite Z.min_id, Z.sub_diag. reflexivity.
Qed.

(** A finite number times [0.0] is a zero, and [1.0] plus a zero is
    [1.0]. *)
Lemma float_mul_zero (x : float) :
  is_finite x = true -> exists s, Prim2SF (x * 0)%float = S754_zero s.
Proof.
  intros Hx. apply is_finite_spec in Hx. rewrite mul_spec.
  change (Prim2SF 0) with (S754_zero false).
  destruct (Prim2SF x) as [s|s| |s m e]; try contradiction; simpl; eauto.
Qed.

Lemma float_one_plus_zero (z : float) (s : bool) :
  Prim2SF z = S754_zero s -> (1 + z = 1)%float.
Proof.
  intros Hz. apply Prim2SF_inj. rewrite add_spec, Hz. reflexivity.
Qed.

End FloatFacts.

(** ** The program on floats: failures and special values *)

Section FloatProgram.

Local Open Scope float_scope.

Implicit Types (r : Rod float).

Lemma float_temperature r :
  Rod_temperature r =
    if (specificHeat (material r) =? 0) || (mass r =? 0)
    then Raise ZeroDivisionError
    else Ok (heat r / specificHeat (material r) / mass r).
Proof.
  unfold Rod_temperature. simpl. unfold Float64.float_truediv.
  destruct (specificHeat (material r) =? 0); simpl; [ reflexivity | ].
  destruct (mass r =? 0); reflexivity.
Qed.

(** On floats a division by zero raises: [temperature()] raises
    [ZeroDivisionError] exactly when [specificHeat] or [mass] equals zero
    (of either sign), and then so do [expansionTemperature()],
    [volumeExpansion()], [linearExpansion()], [length()], [diameter()],
    [STPVolume()] and [volume()]; otherwise [temperature()] is the
    rounded [heat / specificHeat / mass], whatever the numbers are, and
    the first five of the other queries return too. *)
Theorem Rod_zero_division_float r :
  if (specificHeat (material r) =? 0) || (mass r =? 0)
  then
    Rod_temperature r = Raise ZeroDivisionError /\
    Rod_expansionTemperature r = Raise ZeroDivisionError /\
    Rod_volumeExpansion r = Raise ZeroDivisionError /\
    Rod_linearExpansion r = Raise ZeroDivisionError /\
    Rod_length r = Raise ZeroDivisionError /\
    Rod_diameter r = Raise ZeroDivisionError /\
    Rod_STPVolume r = Raise ZeroDivisionError /\
    Rod_volume r = Raise ZeroDivisionError
  else
    Rod_temperature r = Ok (heat r / specificHeat (material r) / mass r) /\
    exists dT e lin len dia,
      Rod_expansionTemperature r = Ok dT /\
      Rod_volumeExpansion r = Ok e /\
      Rod_linearExpansion r = Ok lin /\
      Rod_length r = Ok len /\
      Rod_diameter r = Ok dia.
Proof.
  pose proof (float_temperature r) as Ht.
  destruct ((specificHeat (material r) =? 0) || (mass r =? 0)).
  - split; [ exact Ht | ]. apply (Rod_queries_raise r _ Ht).
  - split; [ exact Ht | ].
    destruct (Rod_queries_ok r _ Ht) as (H1 & H2 & H3 & H4 & H5).
    eexists _, _, _, _, _. eauto 10.
Qed.

(** On floats [STPVolume()] and [volume()] have one failure of their
    own: when [diameter()] returns [d], they raise [OverflowError] if
    [d / 2.0] is finite and its square is not, and return otherwise. *)
Theorem Rod_volume_overflow_float r :
  match Rod_diameter r with
  | Raise x => Rod_STPVolume r = Raise x /\ Rod_volume r = Raise x
  | Ok d =>
      if is_finite (d / 2) && is_infinity (abs (d / 2) * abs (d / 2))
      then Rod_STPVolume r = Raise OverflowError /\
           Rod_volume r = Raise OverflowError
      else exists v v', Rod_STPVolume r = Ok v /\ Rod_volume r = Ok v'
  end.
Proof.
  destruct (Rod_temperature r) as [t|x] eqn:Ht.
  - destruct (Rod_queries_ok r t Ht) as (_ & He & _ & Hl & Hd).
    rewrite Hd. unfold Rod_volume, Rod_STPVolume. rewrite Hl, Hd, He. simpl.
    unfold Float64.float_pow2.
    destruct (is_finite _ && is_infinity _); simpl; eauto.
  - destruct (Rod_queries_raise r x Ht) as (_ & _ & _ & _ & Hd & Hv & Hv').
    rewrite Hd. auto.
Qed.

(** For instance, a rod of diameter 1e200 has a [diameter()] and no
    [volume()]. *)
Lemma wide_rod_has_no_volume :
  Rod_diameter Inputs.wide_rod = Ok 0x1.4e718d7d7625ap+664 /\
  Rod_volume Inputs.wide_rod = Raise OverflowError.
Proof. split; vm_compute; reflexivity. Qed.

(** On floats, at a [temperature()] of exactly 293.0 the expansion factor
    is exactly 1.0, provided three times the expansion coefficient is a
    finite number. *)
Theorem volumeExpansion_at_293_float r :
  Rod_temperature r = Ok 293 ->
  is_finite (expansionCoefficient (material r) * 3) = true ->
  Rod_volumeExpansion r = Ok 1.
Proof.
  intros Ht Hc.
  destruct (Rod_queries_ok r 293 Ht) as (_ & He & _). rewrite He. f_equal.
  simpl.
  change (Float64.int_to_float 1) with 1.
  change (Float64.int_to_float 3) with 3.
  change (293 - Float64.int_to_float 273 - Float64.int_to_float 20) with 0.
  destruct (float_mul_zero _ Hc) as [s Hs].
  apply (float_one_plus_zero _ s Hs).
Qed.

Lemma volumeExpansion_at_293_float_witness :
  Rod_volumeExpansion Scenario.iron_rod = Ok 1.
Proof.
  apply volumeExpansion_at_293_float; vm_compute; reflexivity.
Defined.

(** *** [run] on floats *)

Lemma float_STEP : STEP = Ok 0x1.1111111111111p-6.
Proof. vm_compute. reflexivity. Qed.

(** On floats [run] never asks [time.sleep] for a negative duration,
    whatever the clock returns (it may stand still, run backwards or be
    no number at all) and whether or not [run] is ended by an exception:
    no duration it sleeps compares below zero. *)
Theorem Simulation_run_sleeps_float (fuel : nat) (sim : Simulation)
        (p : Process (F := float)) :
  Forall (fun s => (s <? 0) = false) (slept p) ->
  Forall (fun s => (s <? 0) = false) (slept (Simulation_run fuel sim p).2).
Proof.
  intros Hp. unfold Simulation_run. rewrite float_STEP. unfold time_time.
  apply run_loop_slept; [ | exact Hp ].
  intros d Hd. apply float_sub_not_negative. exact Hd.
Qed.

Lemma Simulation_run_sleeps_float_witness :
  Forall (fun s => (s <? 0) = false)
         (slept (Simulation_run 3 Inputs.simulator Inputs.booted).2).
Proof. apply Simulation_run_sleeps_float. constructor. Defined.

(** On floats the first pass of [run] ticks with a [delta] of exactly
    0.0 when the clock gives a finite number: the objects ticked in that
    pass, all of them or those up to the first that raises, are ticked
    with 0.0. *)
Theorem Simulation_run_first_pass_float (sim : Simulation)
        (p : Process (F := float)) :
  is_finite (clock (world p) (reads (world p))) = true ->
  exists k,
    k <= length (objects sim) /\
    calls (world (Simulation_run 1 sim p).2)
    = calls (world p) ++ map (fun obj => (obj, 0)) (take k (objects sim)).
Proof.
  intros Hfin. unfold Simulation_run. rewrite float_STEP. unfold time_time.
  simpl. unfold run_body. simpl.
  change (PrimFloat.sub ?x ?y) with (x - y).
  rewrite (float_sub_diag _ Hfin).
  match goal with |- context [Simulation_tick sim 0 ?w0] =>
    pose proof (for_each_call_tick (objects sim) 0 w0) as Hc;
    fold (Simulation_tick sim 0) in Hc;
    destruct (Simulation_tick sim 0 w0) as [[u|e] w1] end; simpl in *.
  - exists (length (objects sim)). split; [ lia | ].
    rewrite firstn_all. exact Hc.
  - destruct Hc as (k & Hk & Hc). exists (S k). split; [ lia | exact Hc ].
Qed.

Lemma Simulation_run_first_pass_float_witness :
  exists k,
    k <= length (objects Inputs.simulator) /\
    calls (world (Simulation_run 1 Inputs.simulator Inputs.booted).2)
    = calls (world Inputs.booted)
      ++ map (fun obj => (obj, 0)) (take k (objects Inputs.simulator)).
Proof. apply Simulation_run_first_pass_float. vm_compute. reflexivity. Defined.

End FloatProgram.

(** ** The program in exact arithmetic *)

Section ExactProgram.

Local Open Scope Qc_scope.

Implicit Types (r : Rod Qc) (h : HeatSource Qc) (a b : addr).



(** *** The heat that [run] injects *)





End ExactProgram.

(** ** The further properties at the program's own objects *)

Section FloatWitnesses.

Import Scenario.

Local Open Scope float_scope.

Lemma Rod_tick_outcome_witness : (Rod_tick 0%nat 1 started).1 = Ok tt.
Proof.
  generalize (Rod_tick_outcome started 0%nat 1 iron_rod eq_refl).
  assert (Rod_temperature iron_rod = Ok 293) as -> by (vm_compute; reflexivity).
  intros Hok. exact Hok.
Defined.

Lemma Rod_tick_report_witness :
  exists t len dia r',
    Rod_temperature iron_rod = Ok t /\ Rod_length iron_rod = Ok len /\
    Rod_diameter iron_rod = Ok dia /\
    reads (Rod_tick 0%nat 1 started).2 = 2%nat /\
    stdout (Rod_tick 0%nat 1 started).2
    = stdout started ++ [Text header; Text rule] ++ [] /\
    store (Rod_tick 0%nat 1 started).2 !! 0%nat = Some (ORod r') /\
    printed r' = true /\
    lastPrint r' = lastPrint iron_rod /\
    physical r' = physical iron_rod.
Proof.
  destruct (Rod_tick_report started 0%nat 1 iron_rod)
    as (t & len & dia & r' & Ht & Hl & Hd & Hr & Hs & Hst & Hp & Hlp & Hph);
    [ reflexivity | vm_compute; reflexivity | ].
  exists t, len, dia, r'.
  split; [ exact Ht | ]. split; [ exact Hl | ]. split; [ exact Hd | ].
  split; [ rewrite Hr; reflexivity | ].
  split; [ rewrite Hs; vm_compute; reflexivity | ].
  split; [ exact Hst | ]. split; [ exact Hp | ].
  split; [ rewrite Hlp; vm_compute; reflexivity | exact Hph ].
Defined.

Lemma HeatSource_tick_outcome_witness :
  stdout (HeatSource_tick 1%nat 1 started).2 = stdout started /\
  reads (HeatSource_tick 1%nat 1 started).2 = reads started /\
  calls (HeatSource_tick 1%nat 1 started).2 = calls started /\
  (HeatSource_tick 1%nat 1 started).1 = Ok tt /\
  store (HeatSource_tick 1%nat 1 started).2
  = <[0%nat := ORod (set_heat iron_rod (heat iron_rod + 1 * 100))]> (store started).
Proof.
  generalize (HeatSource_tick_outcome started 1%nat
                (mkHeatSource 100 false (Some (VObj 0%nat))) 1 eq_refl).
  intros Hout. exact Hout.
Defined.

Lemma HeatSource_turnOff_does_not_stop_witness :
  (HeatSource_tick 1%nat 1 (HeatSource_turnOff 1%nat started).2).1
  = (HeatSource_tick 1%nat 1 (HeatSource_turnOn 1%nat started).2).1.
Proof.
  apply (HeatSource_turnOff_does_not_stop started 1%nat
           (mkHeatSource 100 false (Some (VObj 0%nat))) 1).
  reflexivity.
Defined.

Lemma HeatSource_last_settings_win_witness :
  heat_at 0%nat
    (HeatSource_tick 1%nat 1
       (HeatSource_setPower 1%nat 250
          (HeatSource_setTarget 1%nat (VObj 0%nat) target_None).2).2).2
  = Some (heat iron_rod + 1 * 250).
Proof.
  destruct (HeatSource_last_settings_win target_None 1%nat
              (mkHeatSource 100 false (Some VNone)) 0%nat iron_rod 250 1)
    as (_ & _ & _ & Hheat); [ reflexivity | reflexivity | exact Hheat ].
Defined.

Lemma Simulation_run_passes_witness :
  exists step,
    STEP = Ok step /\
    1026.5 = run_reading clock0 1 1 2 /\
    1025.5 = run_reading clock0 1 1 1 /\
    reads (world (Simulation_run 2 Inputs.simulator Inputs.booted).2) = 6%nat /\
    calls (world (Simulation_run 2 Inputs.simulator Inputs.booted).2)
    = [] ++ List.flat_map
              (fun k => map (fun obj => (obj, run_delta clock0 1 1 k))
                            (objects Inputs.simulator))
              (List.seq 0 2) /\
    slept (Simulation_run 2 Inputs.simulator Inputs.booted).2
    = [] ++ List.flat_map (run_sleep step clock0 1 1) (List.seq 0 2).
Proof.
  assert (Simulation_run 2 Inputs.simulator Inputs.booted
          = (Ok (1026.5, 1025.5),
             (Simulation_run 2 Inputs.simulator Inputs.booted).2)) as Hrun
    by (vm_compute; reflexivity).
  pose proof (Simulation_run_passes 2 Inputs.simulator Inputs.booted _ _ _ Hrun)
    as Hp.
  cbv zeta in Hp.
  change (clock (world Inputs.booted)) with clock0 in Hp.
  change (reads (world Inputs.booted)) with 1%nat in Hp.
  change (rod_entries (world Inputs.booted) (objects Inputs.simulator))
    with 1%nat in Hp.
  change (calls (world Inputs.booted)) with (@nil (value * float)) in Hp.
  change (slept Inputs.booted) with (@nil float) in Hp.
  exact Hp.
Defined.


End FloatWitnesses.
